(** * WCP CSI controller (pkg/csi/service/wcp/controller.go)

    A shallow embedding of the controller of the vSphere CSI driver for
    workload clusters, and the properties of its datastore resolution,
    request normalisation, configuration reload and watcher loop.

    Conventions of the embedding:
    - a Go slice is a [list]; the nil slice and the empty slice are both [[]]
      (the code only ever takes [len] of them);
    - a Go [(value, error)] return is a pair whose second component is an
      [option]: [None] is the nil error;
    - [int64] values are [Z] with the wrap-around written as [wrap64];
    - answers of collaborators that live outside controller.go (the vCenter
      inventory, the volume manager, request validation) are inputs of the
      model, and every call made to them is appended to a log, so that the
      order and the number of remote calls can be stated. *)

From stdpp Require Import base strings list gmap.
From Stdlib Require Import ZArith Ascii.

Local Open Scope string_scope.
Local Open Scope list_scope.

(** ** Errors *)

(** A raw cause returned by a collaborator. *)
Inductive cause : Type := Cause (msg : string).

#[global] Instance cause_eq_dec : EqDecision cause.
Proof. solve_decision. Defined.

(** ** Datastore resolution ([getSharedDatastoresInPodVMK8SCluster]) *)

Module Resolver.

(** [cnsvsphere.DatastoreInfo]: the datastore object and its summary; the
    code reads nothing but [Info.Url]. *)
Record DatastoreSummary : Type := { Name : string; Url : string }.
Record DatastoreInfo : Type := { Datastore : string; Info : DatastoreSummary }.

(** A compute host together with the answer its
    [GetAllAccessibleDatastores] gives during one resolution. *)
Record HostSystem : Type := {
  InventoryPath : string;
  GetAllAccessibleDatastores : cause + list DatastoreInfo
}.

Inductive error : Type :=
| ErrCause (c : cause)                  (* propagated as it is *)
| ErrEmptyHosts                         (* "Empty List of hosts returned from VC" *)
| ErrNoSharedDatastores (host : HostSystem).

(** Remote calls of the host loop. *)
Inductive call : Type := FetchAccessible (host : HostSystem).

(** What the inventory answers for the cluster of the configuration. *)
Record Cluster : Type := {
  GetVCenter : option cause;
  GetHostsByCluster : cause + list HostSystem
}.

(** Lines 485-491: scan [accessibleDatastores] and stop at the first entry
    with the Url of [sharedDs]. *)
Fixpoint foundByUrl (sharedDs : DatastoreInfo)
    (accessibleDatastores : list DatastoreInfo) : bool :=
  match accessibleDatastores with
  | [] => false
  | accessibleDs :: rest =>
      if String.eqb (Url (Info sharedDs)) (Url (Info accessibleDs))
      then true
      else foundByUrl sharedDs rest
  end.

(** Lines 482-492: [sharedAccessibleDatastores] grows by [append] while
    [sharedDatastores] is walked from the front. *)
Fixpoint intersectLoop (sharedDatastores accessibleDatastores
    sharedAccessibleDatastores : list DatastoreInfo) : list DatastoreInfo :=
  match sharedDatastores with
  | [] => sharedAccessibleDatastores
  | sharedDs :: rest =>
      intersectLoop rest accessibleDatastores
        (if foundByUrl sharedDs accessibleDatastores
         then sharedAccessibleDatastores ++ [sharedDs]
         else sharedAccessibleDatastores)
  end.

(** Lines 479-494: the new value of [sharedDatastores] after one host. *)
Definition nextShared (sharedDatastores accessibleDatastores : list DatastoreInfo)
    : list DatastoreInfo :=
  if (length sharedDatastores =? 0)%nat
  then accessibleDatastores
  else intersectLoop sharedDatastores accessibleDatastores [].

(** Lines 473-498: the loop over the hosts, threading the running
    [sharedDatastores] and the log of fetches. *)
Fixpoint hostLoop (hosts : list HostSystem) (sharedDatastores : list DatastoreInfo)
    (log : list call) : (list DatastoreInfo * option error) * list call :=
  match hosts with
  | [] => ((sharedDatastores, None), log)
  | host :: rest =>
      let log := log ++ [FetchAccessible host] in
      match GetAllAccessibleDatastores host with
      | inl err => (([], Some (ErrCause err)), log)
      | inr accessibleDatastores =>
          let sharedDatastores := nextShared sharedDatastores accessibleDatastores in
          if (length sharedDatastores =? 0)%nat
          then (([], Some (ErrNoSharedDatastores host)), log)
          else hostLoop rest sharedDatastores log
      end
  end.

(** Lines 467-500, once the host list is known. *)
Definition sharedDatastoresOfHosts (hosts : list HostSystem)
    : (list DatastoreInfo * option error) * list call :=
  if (length hosts =? 0)%nat
  then (([], Some ErrEmptyHosts), [])
  else hostLoop hosts [] [].

(** Lines 455-501. *)
Definition getSharedDatastoresInPodVMK8SCluster (c : Cluster)
    : (list DatastoreInfo * option error) * list call :=
  match GetVCenter c with
  | Some err => (([], Some (ErrCause err)), [])
  | None =>
      match GetHostsByCluster c with
      | inl err => (([], Some (ErrCause err)), [])
      | inr hosts => sharedDatastoresOfHosts hosts
      end
  end.

(** A cluster whose inventory answers with the hosts [hosts]. *)
Definition clusterOf (hosts : list HostSystem) : Cluster :=
  {| GetVCenter := None; GetHostsByCluster := inr hosts |}.

(** A host whose fetch answers with [ds]. *)
Definition hostWith (path : string) (ds : list DatastoreInfo) : HostSystem :=
  {| InventoryPath := path; GetAllAccessibleDatastores := inr ds |}.

Definition datastore (name url : string) : DatastoreInfo :=
  {| Datastore := name; Info := {| Name := name; Url := url |} |}.

(** The identity keys of a sequence of datastores. *)
Definition urls (l : list DatastoreInfo) : list string :=
  map (fun d => Url (Info d)) l.

(** The accessible set a host answers with, when it answers. *)
Definition accessibleOf (host : HostSystem) : list DatastoreInfo :=
  match GetAllAccessibleDatastores host with
  | inl _ => []
  | inr ds => ds
  end.

Definition fetchOk (host : HostSystem) : bool :=
  match GetAllAccessibleDatastores host with
  | inl _ => false
  | inr _ => true
  end.

(** [sharedDs] has its Url in the accessible set of every host of [hosts]. *)
Definition sharedByAll (hosts : list HostSystem) (sharedDs : DatastoreInfo) : bool :=
  forallb (fun host => foundByUrl sharedDs (accessibleOf host)) hosts.

(** The spec's stable intersection by identity key: keep, in the order of
    the running shared set, the entries whose Url occurs among the Urls of
    the accessible set. *)
Definition stableIntersection (shared accessible : list DatastoreInfo)
    : list DatastoreInfo :=
  List.filter (fun d => bool_decide (Url (Info d) ∈ urls accessible)) shared.

(** [u] is an identity key that every host of [hosts] can reach. *)
Definition commonUrl (hosts : list HostSystem) (u : string) : Prop :=
  ∀ host, host ∈ hosts → u ∈ urls (accessibleOf host).

End Resolver.

(** The cluster of the spec's example, and a host that shares nothing with
  its first host. The entries of [H2] differ from those of [H1] in every
  field but the Url. *)
Module ResolverExample.
Import Resolver.

Definition A : DatastoreInfo := datastore "A" "ds:///vmfs/volumes/a/".
Definition B : DatastoreInfo := datastore "B" "ds:///vmfs/volumes/b/".
Definition C : DatastoreInfo := datastore "C" "ds:///vmfs/volumes/c/".
Definition D : DatastoreInfo := datastore "D" "ds:///vmfs/volumes/d/".

Definition B2 : DatastoreInfo := datastore "B-on-H2" "ds:///vmfs/volumes/b/".
Definition C2 : DatastoreInfo := datastore "C-on-H2" "ds:///vmfs/volumes/c/".

Definition H1 : HostSystem := hostWith "/dc/host/cluster/h1" [A; B; C].
Definition H2 : HostSystem := hostWith "/dc/host/cluster/h2" [B2; C2; D].
Definition H3 : HostSystem := hostWith "/dc/host/cluster/h3" [D].
Definition H0 : HostSystem := hostWith "/dc/host/cluster/h0" [].

End ResolverExample.

(** ** The Go runtime notions the controller relies on *)

Module Go.

(** Two's complement wrap-around of a 64-bit signed integer. *)
Definition wrap64 (z : Z) : Z := ((z + 2 ^ 63) mod 2 ^ 64 - 2 ^ 63)%Z.

Definition min_int64 : Z := (- 2 ^ 63)%Z.
Definition max_int64 : Z := (2 ^ 63 - 1)%Z.

(** Indexing a [map[string]string]: a missing key reads as the empty
    string. *)
Definition index (m : gmap string string) (k : string) : string :=
  default "" (m !! k).

(** [strings.ToLower] on the bytes 'A'..'Z'. Go also folds upper-case
    letters outside ASCII; on those this model is the identity, so it is
    the function of the source for ASCII names only. *)
Definition lowerAscii (c : ascii) : ascii :=
  let n := nat_of_ascii c in
  if ((65 <=? n) && (n <=? 90))%nat then ascii_of_nat (n + 32) else c.

Fixpoint ToLower (s : string) : string :=
  match s with
  | EmptyString => EmptyString
  | String c rest => String (lowerAscii c) (ToLower rest)
  end.

(** How a call ends: with a response, with an error handed to the caller,
    or with a run-time panic. *)
Inductive panic : Type := NilPointerDereference.

Inductive outcome (E A : Type) : Type :=
| Returned (resp : A)
| Failed (err : E)
| Panicked (p : panic).
Arguments Returned {E A} resp.
Arguments Failed {E A} err.
Arguments Panicked {E A} p.

#[global] Instance outcome_ret {E} : MRet (outcome E) := fun A a => Returned a.

#[global] Instance outcome_bind {E} : MBind (outcome E) := fun A B k m =>
  match m with
  | Returned a => k a
  | Failed e => Failed e
  | Panicked p => Panicked p
  end.

(** Reading a field through a pointer: a nil pointer panics. *)
Definition deref {E A} (p : option A) : outcome E A :=
  match p with
  | Some a => Returned a
  | None => Panicked NilPointerDereference
  end.

End Go.

(** ** Package [common]: constants and helpers used by the controller *)

Module Common.

(** Modelled from the spec: [common.MbInBytes], [common.GbInBytes] and
    [common.DefaultGbDiskSize] are declared outside controller.go; the
    allocation unit is the MB and the default size is 10 GiB. *)
Definition MbInBytes : Z := (1024 * 1024)%Z.
Definition GbInBytes : Z := (1024 * 1024 * 1024)%Z.
Definition DefaultGbDiskSize : Z := 10%Z.

(** Modelled from the spec: [common.RoundUpSize] is declared outside
    controller.go; the byte count is rounded up to whole allocation units.
    Written with Go's truncating division and remainder. *)
Definition RoundUpSize (volumeSizeBytes allocationUnitBytes : Z) : Z :=
  let roundedUp := (volumeSizeBytes ÷ allocationUnitBytes)%Z in
  if (0 <? Z.rem volumeSizeBytes allocationUnitBytes)%Z
  then Go.wrap64 (roundedUp + 1)
  else roundedUp.

(** Modelled from the spec: the recognised parameter names
    [common.AttributeStoragePolicyID] and [common.AttributeAffineToHost]
    are declared outside controller.go; they are the lower-case forms the
    request's parameter names are folded to. *)
Definition AttributeStoragePolicyID : string := "storagepolicyid".
Definition AttributeAffineToHost : string := "affinetohost".

(** Modelled from the spec: the fixed attribute that marks a volume as a
    block-type disk, the disk UUID attribute and the volume type are
    declared outside controller.go. *)
Definition AttributeDiskType : string := "type".
Definition DiskTypeBlockVolume : string := "vSphere CNS Block Volume".
Definition AttributeFirstClassDiskUUID : string := "diskUUID".
Definition BlockVolumeType : string := "BLOCK".

Record CreateVolumeSpec : Type := {
  CapacityMB : Z;
  Name : string;
  StoragePolicyID : string;
  AffineToHost : string;
  VolumeType : string
}.

End Common.

(** ** gRPC status errors *)

Module Status.

Inductive code : Type := Internal | Unimplemented.

(** One constructor for each message the controller formats. *)
Inductive message : Type :=
| FailedSharedDatastores (e : Resolver.error)                 (* line 231 *)
| FailedCreateVolume (e : cause)                              (* line 237 *)
| FailedPodVMUUID (volumeID nodeID : string) (e : cause)      (* line 291 *)
| FailedDatacenter (e : cause)                                (* line 298 *)
| CannotGetVirtualCenter (host : string) (e : cause)          (* line 309 *)
| FailedConnect (host : string)                               (* line 320 *)
| FailedPodVM (vmuuid dc : string) (e : cause)                (* line 327 *)
| FailedAttach (volumeID : string) (e : cause).               (* line 335 *)

(** What a controller operation hands back as its [error]: the validation
    error as it came, or a status with a code. *)
Inductive error : Type :=
| Validation (e : cause)
| Errorf (c : code) (msg : message).

End Status.

(** ** [CreateVolume] *)

Module Create.
Import Common.

Record CapacityRange : Type := { RequiredBytes : Z; LimitBytes : Z }.

Record CreateVolumeRequest : Type := {
  ReqName : string;
  GetCapacityRange : option CapacityRange;
  Parameters : gmap string string
}.

Record Volume : Type := {
  VolumeId : string;
  CapacityBytes : Z;
  VolumeContext : gmap string string
}.

(** The answers of the collaborators during one call. The order in which
    [range] visits the keys of [Parameters] is not fixed by Go; it is an
    input as well. *)
Record Answers : Type := {
  validateWCPCreateVolumeRequest : CreateVolumeRequest → option cause;
  rangeOrder : list string;
  cluster : Resolver.Cluster;
  CreateBlockVolumeUtil :
    CreateVolumeSpec → list Resolver.DatastoreInfo → cause + string
}.

Inductive call : Type :=
| Resolve (c : Resolver.call)
| CreateBlockVolume (spec : CreateVolumeSpec) (sharedDatastores : list Resolver.DatastoreInfo).

(** Lines 200-204. *)
Definition volSizeBytes (req : CreateVolumeRequest) : Z :=
  match GetCapacityRange req with
  | Some range =>
      if (RequiredBytes range =? 0)%Z
      then Go.wrap64 (DefaultGbDiskSize * GbInBytes)
      else RequiredBytes range
  | None => Go.wrap64 (DefaultGbDiskSize * GbInBytes)
  end.

(** Line 205. *)
Definition volSizeMB (req : CreateVolumeRequest) : Z :=
  RoundUpSize (volSizeBytes req) MbInBytes.

(** Lines 212-217: the body of the loop over the parameter names; the
    state is [(storagePolicyID, affineToHost)]. *)
Definition scanParameter (Parameters : gmap string string)
    (vars : string * string) (paramName : string) : string * string :=
  let param := Go.ToLower paramName in
  if String.eqb param AttributeStoragePolicyID
  then (Go.index Parameters paramName, snd vars)
  else if String.eqb param AttributeAffineToHost
  then (fst vars, Go.index Parameters AttributeAffineToHost)
  else vars.

(** [paramName] equals [key] under case folding. *)
Definition foldsTo (key : string) (paramName : string) : bool :=
  String.eqb (Go.ToLower paramName) key.

(** Lines 207-218. *)
Definition scanParameters (order : list string) (Parameters : gmap string string)
    : string * string :=
  fold_left (scanParameter Parameters) order ("", "").

(** Lines 220-227. *)
Definition createVolumeSpec (order : list string) (req : CreateVolumeRequest)
    : CreateVolumeSpec :=
  let vars := scanParameters order (Parameters req) in
  {| CapacityMB := volSizeMB req;
     Name := ReqName req;
     StoragePolicyID := fst vars;
     AffineToHost := snd vars;
     VolumeType := BlockVolumeType |}.

(** Lines 188-251. *)
Definition CreateVolume (env : Answers) (req : CreateVolumeRequest)
    : Go.outcome Status.error Volume * list call :=
  match validateWCPCreateVolumeRequest env req with
  | Some err => (Go.Failed (Status.Validation err), [])
  | None =>
      let spec := createVolumeSpec (rangeOrder env) req in
      let '((sharedDatastores, err), fetches) :=
        Resolver.getSharedDatastoresInPodVMK8SCluster (cluster env) in
      let log := map Resolve fetches in
      match err with
      | Some err =>
          (Go.Failed (Status.Errorf Status.Internal (Status.FailedSharedDatastores err)), log)
      | None =>
          let log := log ++ [CreateBlockVolume spec sharedDatastores] in
          match CreateBlockVolumeUtil env spec sharedDatastores with
          | inl err =>
              (Go.Failed (Status.Errorf Status.Internal (Status.FailedCreateVolume err)), log)
          | inr volumeID =>
              (Go.Returned
                 {| VolumeId := volumeID;
                    CapacityBytes := Go.wrap64 (volSizeMB req * MbInBytes);
                    VolumeContext := {[ AttributeDiskType := DiskTypeBlockVolume ]} |},
               log)
          end
      end
  end.

(** The request of the spec's example, and one that names the host
    affinity key in mixed case. *)
Definition upperCasePolicyRequest : CreateVolumeRequest :=
  {| ReqName := "pvc-1"; GetCapacityRange := None;
     Parameters := {[ "STORAGEPOLICYID" := "p1" ]} |}.

Definition mixedCaseAffinityRequest : CreateVolumeRequest :=
  {| ReqName := "pvc-2"; GetCapacityRange := None;
     Parameters := {[ "AffineToHost" := "host-11" ]} |}.

Definition oneByteRequest : CreateVolumeRequest :=
  {| ReqName := "pvc-3";
     GetCapacityRange := Some {| RequiredBytes := 1; LimitBytes := 0 |};
     Parameters := ∅ |}.

(** Answers under which every collaborator succeeds on the example cluster. *)
Definition allGood (order : list string) : Answers :=
  {| validateWCPCreateVolumeRequest := fun _ => None;
     rangeOrder := order;
     cluster := Resolver.clusterOf [ResolverExample.H1; ResolverExample.H2];
     CreateBlockVolumeUtil := fun _ _ => inr "volume-1" |}.

End Create.

(** ** Package [config] *)

Module config.

(** [config.Config]; the controller reads the cluster id and hands the rest
    on. *)
Record Config : Type := { ClusterID : string; Revision : string }.

End config.

(** ** Package [cnsvsphere]: endpoint configurations, sessions, registry *)

Module VSphere.

(** [cnsvsphere.VirtualCenterConfig]: the fields the controller compares. *)
Record VirtualCenterConfig : Type := {
  Host : string;
  Username : string;
  Password : string
}.

(** [cnsvsphere.VirtualCenter]: a session handle, bound to the endpoint
    configuration it was registered with. *)
Record VirtualCenter : Type := { Config : VirtualCenterConfig }.

(** Modelled from the spec: the error of a lookup that finds no session. *)
Definition ErrVCNotFound : cause := Cause "virtual center wasn't found in registry".

(** Modelled from the spec: the virtual center manager is declared outside
    controller.go. It keeps the registered sessions by host; deregistering
    all of them empties the registry. [fault] is the error the call ends
    with, if any; a failing call is taken to leave the registry as it was. *)
Definition UnregisterAllVirtualCenters (fault : option cause)
    (virtualCenters : gmap string VirtualCenter)
    : gmap string VirtualCenter * option cause :=
  match fault with
  | Some err => (virtualCenters, Some err)
  | None => (∅, None)
  end.

(** Modelled from the spec: registering creates a session against the
    given endpoint configuration and records it under its host. *)
Definition RegisterVirtualCenter (fault : option cause) (config : VirtualCenterConfig)
    (virtualCenters : gmap string VirtualCenter)
    : gmap string VirtualCenter * (option VirtualCenter * option cause) :=
  match fault with
  | Some err => (virtualCenters, (None, Some err))
  | None =>
      let vc := {| Config := config |} in
      (<[Host config := vc]> virtualCenters, (Some vc, None))
  end.

(** Modelled from the spec: a lookup returns the session registered for
    the host and fails, with no session, when there is none. *)
Definition GetVirtualCenter (host : string)
    (virtualCenters : gmap string VirtualCenter)
    : option VirtualCenter * option cause :=
  match virtualCenters !! host with
  | Some vc => (Some vc, None)
  | None => (None, Some ErrVCNotFound)
  end.

(** The virtual center manager is a process-wide singleton; a field of
    that type can only hold this one reference. Its registry is part of
    the controller's state below. *)
Inductive VirtualCenterManager : Type := theVirtualCenterManager.

(** Modelled from the spec: the volume manager handle is bound to the
    session it was last reset to. *)
Record VolumeManager : Type := { virtualCenter : VirtualCenter }.

(** [common.Manager]. *)
Record Manager : Type := {
  VcenterConfig : VirtualCenterConfig;
  CnsConfig : config.Config;
  VolumeManagerOf : VolumeManager;
  VcenterManager : VirtualCenterManager
}.

(** The controller: its [manager] field and the registry its
    [VcenterManager] refers to. *)
Record controller : Type := {
  manager : Manager;
  virtualCenters : gmap string VirtualCenter
}.

End VSphere.

(** ** [ReloadConfiguration] *)

Module Reload.
Import VSphere.

(** The answers of the collaborators during one reload. *)
Record Answers : Type := {
  GetConfig : cause + option config.Config;
  GetVirtualCenterConfig : cause + option VirtualCenterConfig;
  unregisterFault : option cause;
  registerFault : option cause
}.

Inductive call : Type :=
| UnregisterAll
| Register (config : VirtualCenterConfig)
| Lookup (host : string)
| ResetManager (vcenter : VirtualCenter).

(** Lines 152-154. *)
Definition credentialsDiffer (current new : VirtualCenterConfig) : bool :=
  negb (String.eqb (Host current) (Host new))
  || negb (String.eqb (Username current) (Username new))
  || negb (String.eqb (Password current) (Password new)).

(** Lines 151-174: the session to bind to, or [None] when the function
    returns early; the registry changes made on the way stay. *)
Definition selectVirtualCenter (env : Answers) (newVCConfig : VirtualCenterConfig)
    (c : controller) : controller * option VirtualCenter * list call :=
  if credentialsDiffer (VcenterConfig (manager c)) newVCConfig then
    let '(registry, err) :=
      UnregisterAllVirtualCenters (unregisterFault env) (virtualCenters c) in
    let c := {| manager := manager c; virtualCenters := registry |} in
    match err with
    | Some _ => (c, None, [UnregisterAll])
    | None =>
        let '(registry, (vcenter, err)) :=
          RegisterVirtualCenter (registerFault env) newVCConfig (virtualCenters c) in
        let c := {| manager := manager c; virtualCenters := registry |} in
        match err, vcenter with
        | None, Some vcenter =>
            let m := manager c in
            ({| manager := {| VcenterConfig := VcenterConfig m;
                              CnsConfig := CnsConfig m;
                              VolumeManagerOf := VolumeManagerOf m;
                              VcenterManager := theVirtualCenterManager |};
                virtualCenters := virtualCenters c |},
             Some vcenter, [UnregisterAll; Register newVCConfig])
        | _, _ => (c, None, [UnregisterAll; Register newVCConfig])
        end
    end
  else
    match GetVirtualCenter (Host newVCConfig) (virtualCenters c) with
    | (Some vcenter, None) => (c, Some vcenter, [Lookup (Host newVCConfig)])
    | _ => (c, None, [Lookup (Host newVCConfig)])
    end.

(** Lines 175-177. *)
Definition bindVirtualCenter (vcenter : VirtualCenter)
    (newVCConfig : VirtualCenterConfig) (c : controller) : controller :=
  let m := manager c in
  {| manager := {| VcenterConfig := newVCConfig;
                   CnsConfig := CnsConfig m;
                   VolumeManagerOf := {| virtualCenter := vcenter |};
                   VcenterManager := VcenterManager m |};
     virtualCenters := virtualCenters c |}.

(** Lines 179-182. *)
Definition updateCnsConfig (cfg : option config.Config) (c : controller) : controller :=
  match cfg with
  | None => c
  | Some cfg =>
      let m := manager c in
      {| manager := {| VcenterConfig := VcenterConfig m;
                       CnsConfig := cfg;
                       VolumeManagerOf := VolumeManagerOf m;
                       VcenterManager := VcenterManager m |};
         virtualCenters := virtualCenters c |}
  end.

(** Lines 137-184. *)
Definition ReloadConfiguration (env : Answers) (c : controller)
    : controller * list call :=
  match GetConfig env with
  | inl _ => (c, [])
  | inr cfg =>
      match GetVirtualCenterConfig env with
      | inl _ => (c, [])
      | inr None => (updateCnsConfig cfg c, [])
      | inr (Some newVCConfig) =>
          let '(c, vcenter, log) := selectVirtualCenter env newVCConfig c in
          match vcenter with
          | None => (c, log)
          | Some vcenter =>
              (updateCnsConfig cfg (bindVirtualCenter vcenter newVCConfig c),
               log ++ [ResetManager vcenter])
          end
      end
  end.

(** A controller bound to the endpoint "vc-old", and a reload towards
    "vc-new" whose deregistration succeeds and whose registration fails. *)
Definition oldConfig : VirtualCenterConfig :=
  {| Host := "vc-old"; Username := "admin"; Password := "secret-1" |}.
Definition newConfig : VirtualCenterConfig :=
  {| Host := "vc-new"; Username := "admin"; Password := "secret-2" |}.
Definition oldSession : VirtualCenter := {| Config := oldConfig |}.

Definition boundToOld : controller :=
  {| manager := {| VcenterConfig := oldConfig;
                   CnsConfig := {| config.ClusterID := "domain-c8"; config.Revision := "1" |};
                   VolumeManagerOf := {| virtualCenter := oldSession |};
                   VcenterManager := theVirtualCenterManager |};
     virtualCenters := {[ "vc-old" := oldSession ]} |}.

Definition registrationFails : Answers :=
  {| GetConfig := inr (Some {| config.ClusterID := "domain-c8"; config.Revision := "2" |});
     GetVirtualCenterConfig := inr (Some newConfig);
     unregisterFault := None;
     registerFault := Some (Cause "cannot register") |}.

Definition reloadSucceeds : Answers :=
  {| GetConfig := inr (Some {| config.ClusterID := "domain-c8"; config.Revision := "2" |});
     GetVirtualCenterConfig := inr (Some newConfig);
     unregisterFault := None;
     registerFault := None |}.

End Reload.

(** ** [ControllerPublishVolume] and [ControllerUnpublishVolume] *)

Module Attach.
Import VSphere.

Record ControllerPublishVolumeRequest : Type := {
  VolumeId : string;
  NodeId : string
}.

Record ControllerPublishVolumeResponse : Type := {
  PublishContext : gmap string string
}.

Record ControllerUnpublishVolumeRequest : Type := {
  UnpublishVolumeId : string;
  UnpublishNodeId : string
}.

Record ControllerUnpublishVolumeResponse : Type := {}.

(** Calls that reach the backing volume manager. The controller has a call
    site for the first one only. *)
Inductive volumeCall : Type :=
| AttachVolume (podVM volumeID : string)
| DetachVolume (podVM volumeID : string).

(** The controller together with the history of the calls made to the
    backing volume manager so far. *)
Record world : Type := {
  ctl : controller;
  history : list volumeCall
}.

(** The answers of the collaborators during one call. *)
Record Answers : Type := {
  validateWCPControllerPublishVolumeRequest :
    ControllerPublishVolumeRequest → option cause;
  getVMUUIDFromPodListenerService : string → string → cause + string;
  (* the entries of the returned map, in the order [range] visits them *)
  getDatacenterFromConfig : config.Config → cause + list (string * string);
  Connect : VirtualCenter → option cause;
  getVMByInstanceUUIDInDatacenter : VirtualCenter → string → string → cause + string;
  AttachVolumeUtil : Manager → string → string → cause + string;
  FormatDiskUUID : string → string
}.

Definition internal {A} (msg : cause → Status.message) (r : cause + A)
    : Go.outcome Status.error A :=
  match r with
  | inl err => Go.Failed (Status.Errorf Status.Internal (msg err))
  | inr a => Go.Returned a
  end.

(** Lines 302-306: the loop keeps the entry visited last. *)
Definition lastEntry (vcdcMap : list (string * string)) : string * string :=
  fold_left (fun _ entry => entry) vcdcMap ("", "").

(** Lines 282-330: everything up to the attach call; the result is the
    session and the pod VM. *)
Definition prepareAttach (env : Answers) (c : controller)
    (req : ControllerPublishVolumeRequest)
    : Go.outcome Status.error (VirtualCenter * string) :=
  match validateWCPControllerPublishVolumeRequest env req with
  | Some err => Go.Failed (Status.Validation err)
  | None =>
      vmuuid ← internal (Status.FailedPodVMUUID (VolumeId req) (NodeId req))
                 (getVMUUIDFromPodListenerService env (VolumeId req) (NodeId req));
      vcdcMap ← internal Status.FailedDatacenter
                  (getDatacenterFromConfig env (CnsConfig (manager c)));
      let '(vCenterHost, dcMorefValue) := lastEntry vcdcMap in
      let '(vc, err) := GetVirtualCenter vCenterHost (virtualCenters c) in
      match err with
      | Some err =>
          (* line 310 reads vc.Config.Host to format the message *)
          v ← Go.deref vc;
          Go.Failed (Status.Errorf Status.Internal
                       (Status.CannotGetVirtualCenter (Host (Config v)) err))
      | None =>
          v ← Go.deref vc;
          match Connect env v with
          | Some _ =>
              Go.Failed (Status.Errorf Status.Internal
                           (Status.FailedConnect (Host (Config v))))
          | None =>
              podVM ← internal (Status.FailedPodVM vmuuid dcMorefValue)
                        (getVMByInstanceUUIDInDatacenter env v dcMorefValue vmuuid);
              Go.Returned (v, podVM)
          end
      end
  end.

(** Lines 277-348. *)
Definition ControllerPublishVolume (env : Answers) (w : world)
    (req : ControllerPublishVolumeRequest)
    : Go.outcome Status.error ControllerPublishVolumeResponse * world :=
  match prepareAttach env (ctl w) req with
  | Go.Failed err => (Go.Failed err, w)
  | Go.Panicked p => (Go.Panicked p, w)
  | Go.Returned (_, podVM) =>
      let w := {| ctl := ctl w;
                  history := history w ++ [AttachVolume podVM (VolumeId req)] |} in
      match AttachVolumeUtil env (manager (ctl w)) podVM (VolumeId req) with
      | inl err =>
          (Go.Failed (Status.Errorf Status.Internal
                        (Status.FailedAttach (VolumeId req) err)), w)
      | inr diskUUID =>
          (Go.Returned
             {| PublishContext :=
                  <[Common.AttributeFirstClassDiskUUID := FormatDiskUUID env diskUUID]>
                    {[ Common.AttributeDiskType := Common.DiskTypeBlockVolume ]} |},
           w)
      end
  end.

(** Lines 352-364. The validation of the request is the only call. *)
Definition ControllerUnpublishVolume
    (validateWCPControllerUnpublishVolumeRequest :
       ControllerUnpublishVolumeRequest → option cause)
    (w : world) (req : ControllerUnpublishVolumeRequest)
    : Go.outcome Status.error ControllerUnpublishVolumeResponse * world :=
  match validateWCPControllerUnpublishVolumeRequest req with
  | Some err => (Go.Failed (Status.Validation err), w)
  | None => (Go.Returned Build_ControllerUnpublishVolumeResponse, w)
  end.

(** A publish request whose configured host has no registered session. *)
Definition unregisteredHost : Answers :=
  {| validateWCPControllerPublishVolumeRequest := fun _ => None;
     getVMUUIDFromPodListenerService := fun _ _ => inr "4211-vm-uuid";
     getDatacenterFromConfig := fun _ => inr [("vc-gone", "datacenter-2")];
     Connect := fun _ => None;
     getVMByInstanceUUIDInDatacenter := fun _ _ _ => inr "vm-42";
     AttachVolumeUtil := fun _ _ _ => inr "6000c29a";
     FormatDiskUUID := fun s => s |}.

Definition registeredHost : Answers :=
  {| validateWCPControllerPublishVolumeRequest := fun _ => None;
     getVMUUIDFromPodListenerService := fun _ _ => inr "4211-vm-uuid";
     getDatacenterFromConfig := fun _ => inr [("vc-old", "datacenter-2")];
     Connect := fun _ => None;
     getVMByInstanceUUIDInDatacenter := fun _ _ _ => inr "vm-42";
     AttachVolumeUtil := fun _ _ _ => inr "6000c29a";
     FormatDiskUUID := fun s => s |}.

Definition publishRequest : ControllerPublishVolumeRequest :=
  {| VolumeId := "volume-1"; NodeId := "node-1" |}.

Definition unpublishRequest : ControllerUnpublishVolumeRequest :=
  {| UnpublishVolumeId := "volume-1"; UnpublishNodeId := "node-1" |}.

Definition freshWorld : world := {| ctl := Reload.boundToOld; history := [] |}.

End Attach.

(** ** The configuration watcher started by [Init] *)

Module Watcher.
Import VSphere.

(** [fsnotify.Op] is a bit mask. *)
Definition Create : N := 1.
Definition Write : N := 2.
Definition Remove : N := 4.
Definition Rename : N := 8.
Definition Chmod : N := 16.

Record Event : Type := { Name : string; Op : N }.

(** What one [select] of the loop receives. An event comes with the
    answers the collaborators give, should the reload run for it. *)
Inductive received : Type :=
| FromEvents (event : Event) (answers : Reload.Answers)
| EventsClosed
| FromErrors (err : cause)
| ErrorsClosed.

(** What the goroutine does, in order. *)
Inductive action : Type :=
| Waiting                                   (* line 106 *)
| GotEvent (event : Event)                  (* line 112 *)
| Reloaded (calls : list Reload.call)       (* line 114, the call and its return *)
| Processed.                                (* line 122 *)

Inductive status : Type :=
| Blocked        (* in [select], nothing more was delivered *)
| Terminated.    (* the goroutine returned *)

(** Line 113. *)
Definition isRemove (event : Event) : bool :=
  N.eqb (N.land (Op event) Remove) Remove.

(** Lines 105-123. *)
Fixpoint watchLoop (inputs : list received) (c : controller) (trace : list action)
    : controller * list action * status :=
  let trace := trace ++ [Waiting] in
  match inputs with
  | [] => (c, trace, Blocked)
  | EventsClosed :: _ => (c, trace, Terminated)
  | ErrorsClosed :: _ => (c, trace, Terminated)
  | FromErrors _ :: rest => watchLoop rest c (trace ++ [Processed])
  | FromEvents event answers :: rest =>
      let trace := trace ++ [GotEvent event] in
      if isRemove event then
        let '(c, calls) := Reload.ReloadConfiguration answers c in
        watchLoop rest c (trace ++ [Reloaded calls] ++ [Processed])
      else
        watchLoop rest c (trace ++ [Processed])
  end.

(** The reloads recorded in a trace. *)
Definition reloads (trace : list action) : list (list Reload.call) :=
  omap (fun a => match a with Reloaded calls => Some calls | _ => None end) trace.

(** The inputs the loop gets to see: those before a channel is closed. *)
Fixpoint delivered (inputs : list received) : list received :=
  match inputs with
  | [] => []
  | EventsClosed :: _ => []
  | ErrorsClosed :: _ => []
  | input :: rest => input :: delivered rest
  end.

Definition isRemoval (input : received) : bool :=
  match input with
  | FromEvents event _ => isRemove event
  | _ => false
  end.

(** The controller after the reloads of the removal events of [inputs],
    in the order of delivery. *)
Definition afterReloads (inputs : list received) (c : controller) : controller :=
  fold_left (fun c input =>
               match input with
               | FromEvents event answers =>
                   if isRemove event
                   then fst (Reload.ReloadConfiguration answers c)
                   else c
               | _ => c
               end) (delivered inputs) c.

End Watcher.

(** ** [DeleteVolume] *)

Module Delete.
Import VSphere.

Record DeleteVolumeRequest : Type := { VolumeId : string }.

Record DeleteVolumeResponse : Type := {}.

(** What the call hands back as its [error]: the validation error as it
    came, or the status of line 270 with the volume id and the cause. *)
Inductive error : Type :=
| Validation (e : cause)
| Errorf (c : Status.code) (volumeID : string) (e : cause).

(** The call that reaches the volume manager, with its arguments. *)
Inductive call : Type :=
| DeleteVolumeUtilCall (m : Manager) (volumeID : string) (deleteDisk : bool).

Record Answers : Type := {
  validateWCPDeleteVolumeRequest : DeleteVolumeRequest → option cause;
  DeleteVolumeUtil : Manager → string → bool → option cause
}.

(** Lines 254-273. *)
Definition DeleteVolume (env : Answers) (c : controller) (req : DeleteVolumeRequest)
    : Go.outcome error DeleteVolumeResponse * list call :=
  match validateWCPDeleteVolumeRequest env req with
  | Some err => (Go.Failed (Validation err), [])
  | None =>
      let log := [DeleteVolumeUtilCall (manager c) (VolumeId req) true] in
      match DeleteVolumeUtil env (manager c) (VolumeId req) true with
      | Some err => (Go.Failed (Errorf Status.Internal (VolumeId req) err), log)
      | None => (Go.Returned Build_DeleteVolumeResponse, log)
      end
  end.

Definition deleteRequest : DeleteVolumeRequest := {| VolumeId := "volume-1" |}.

Definition deleteSucceeds : Answers :=
  {| validateWCPDeleteVolumeRequest := fun _ => None;
     DeleteVolumeUtil := fun _ _ _ => None |}.

End Delete.

(** ** Capabilities and the verbs that are not implemented *)

Module Verbs.
Import VSphere.

(** [csi.ControllerServiceCapability_RPC_Type]. *)
Inductive RPC_Type : Type :=
| UNKNOWN
| CREATE_DELETE_VOLUME
| PUBLISH_UNPUBLISH_VOLUME
| LIST_VOLUMES
| GET_CAPACITY
| CREATE_DELETE_SNAPSHOT
| LIST_SNAPSHOTS
| CLONE_VOLUME
| PUBLISH_READONLY
| EXPAND_VOLUME.

#[global] Instance RPC_Type_eq_dec : EqDecision RPC_Type.
Proof. solve_decision. Defined.

Record ControllerServiceCapability : Type := { Rpc : RPC_Type }.

(** Lines 42-45. *)
Definition controllerCaps : list RPC_Type :=
  [CREATE_DELETE_VOLUME; PUBLISH_UNPUBLISH_VOLUME].

(** [status.Error(code, msg)]. *)
Inductive statusError : Type := Error (c : Status.code) (msg : string).

(** Lines 398-416: [caps] grows by [append] over [controllerCaps]. *)
Definition ControllerGetCapabilities {Req : Type} (c : controller) (req : Req)
    : Go.outcome statusError (list ControllerServiceCapability) :=
  Go.Returned
    (fold_left (fun caps cap => caps ++ [{| Rpc := cap |}]) controllerCaps []).

(** Lines 382-388, 390-396, 418-425, 427-434, 436-443 and 446-452: the
    request is logged and nothing else is done with it. *)
Definition ListVolumes {Req Resp : Type} (c : controller) (req : Req)
    : Go.outcome statusError Resp := Go.Failed (Error Status.Unimplemented "").
Definition GetCapacity {Req Resp : Type} (c : controller) (req : Req)
    : Go.outcome statusError Resp := Go.Failed (Error Status.Unimplemented "").
Definition CreateSnapshot {Req Resp : Type} (c : controller) (req : Req)
    : Go.outcome statusError Resp := Go.Failed (Error Status.Unimplemented "").
Definition DeleteSnapshot {Req Resp : Type} (c : controller) (req : Req)
    : Go.outcome statusError Resp := Go.Failed (Error Status.Unimplemented "").
Definition ListSnapshots {Req Resp : Type} (c : controller) (req : Req)
    : Go.outcome statusError Resp := Go.Failed (Error Status.Unimplemented "").
Definition ControllerExpandVolume {Req Resp : Type} (c : controller) (req : Req)
    : Go.outcome statusError Resp := Go.Failed (Error Status.Unimplemented "").

(** The status code of an error of [CreateVolume] or
    [ControllerPublishVolume], when it is a status. *)
Definition codeOf (err : Status.error) : option Status.code :=
  match err with
  | Status.Validation _ => None
  | Status.Errorf c _ => Some c
  end.

End Verbs.

(** ** [Init] *)

Module Init.
Import VSphere.

(** The answers of the collaborators during the initialisation. *)
Record Answers : Type := {
  GetVirtualCenterConfig : config.Config → cause + VirtualCenterConfig;
  registerFault : option cause;
  (* [common.GetVCenter]: the API version of the session it returns *)
  GetVCenter : Manager → cause + string;
  CheckAPI : string → option cause;
  GetConfigPath : string;
  NewWatcher : option cause;
  Dir : string → string;                   (* [filepath.Dir] *)
  Add : string → option cause              (* [watcher.Add] *)
}.

(** What the call starts and registers besides its return value. *)
Inductive effect : Type :=
| StartClearTaskInfoObjects                (* line 97 *)
| StartWatcherLoop                         (* line 104 *)
| AddWatch (cfgDirPath : string).          (* line 127 *)

Record result : Type := {
  err : option cause;
  managerAfter : option Manager;           (* [c.manager], nil before line 80 *)
  registryAfter : gmap string VirtualCenter;
  effects : list effect
}.

(** Lines 60-133. *)
Definition Init (env : Answers) (cfg : config.Config)
    (registry : gmap string VirtualCenter) : result :=
  match GetVirtualCenterConfig env cfg with
  | inl e => {| err := Some e; managerAfter := None;
                registryAfter := registry; effects := [] |}
  | inr vcenterconfig =>
      match RegisterVirtualCenter (registerFault env) vcenterconfig registry with
      | (registry, (Some vcenter, None)) =>
          let m := {| VcenterConfig := vcenterconfig;
                      CnsConfig := cfg;
                      VolumeManagerOf := {| virtualCenter := vcenter |};
                      VcenterManager := theVirtualCenterManager |} in
          match GetVCenter env m with
          | inl e => {| err := Some e; managerAfter := Some m;
                        registryAfter := registry; effects := [] |}
          | inr apiVersion =>
              match CheckAPI env apiVersion with
              | Some e => {| err := Some e; managerAfter := Some m;
                             registryAfter := registry; effects := [] |}
              | None =>
                  let cfgPath := GetConfigPath env in
                  match NewWatcher env with
                  | Some e => {| err := Some e; managerAfter := Some m;
                                 registryAfter := registry;
                                 effects := [StartClearTaskInfoObjects] |}
                  | None =>
                      let cfgDirPath := Dir env cfgPath in
                      {| err := Add env cfgDirPath;
                         managerAfter := Some m;
                         registryAfter := registry;
                         effects := [StartClearTaskInfoObjects; StartWatcherLoop;
                                     AddWatch cfgDirPath] |}
                  end
              end
          end
      | (registry, (_, Some e)) =>
          {| err := Some e; managerAfter := None;
             registryAfter := registry; effects := [] |}
      | (registry, (None, None)) =>
          (* not an answer of the registry: a nil session without an error *)
          {| err := None; managerAfter := None;
             registryAfter := registry; effects := [] |}
      end
  end.

(** The controller a successful initialisation leaves. *)
Definition controllerOf (r : result) : option controller :=
  match err r, managerAfter r with
  | None, Some m => Some {| manager := m; virtualCenters := registryAfter r |}
  | _, _ => None
  end.

Definition initConfig : config.Config :=
  {| config.ClusterID := "domain-c8"; config.Revision := "1" |}.

Definition allGood : Answers :=
  {| GetVirtualCenterConfig := fun _ => inr Reload.oldConfig;
     registerFault := None;
     GetVCenter := fun _ => inr "6.7.3";
     CheckAPI := fun _ => None;
     GetConfigPath := "/etc/cloud/csi-vsphere.conf";
     NewWatcher := None;
     Dir := fun _ => "/etc/cloud";
     Add := fun _ => None |}.

Definition addFails : Answers :=
  {| GetVirtualCenterConfig := fun _ => inr Reload.oldConfig;
     registerFault := None;
     GetVCenter := fun _ => inr "6.7.3";
     CheckAPI := fun _ => None;
     GetConfigPath := "/etc/cloud/csi-vsphere.conf";
     NewWatcher := None;
     Dir := fun _ => "/etc/cloud";
     Add := fun _ => Some (Cause "no such file or directory") |}.

End Init.

(** ** Predicates used to state the properties *)

Module Facts.
Import VSphere.

(** Every session of the registry is kept under its own host. *)
Definition keysMatch (registry : gmap string VirtualCenter) : Prop :=
  ∀ host vc, registry !! host = Some vc → Host (Config vc) = host.

(** The volume manager handle is bound to a session of the host the
    manager's endpoint configuration names. *)
Definition hostBound (c : controller) : Prop :=
  keysMatch (virtualCenters c)
  ∧ Host (Config (virtualCenter (VolumeManagerOf (manager c))))
    = Host (VcenterConfig (manager c)).

(** A [select] that finds one of the two channels closed. *)
Definition isClosed (input : Watcher.received) : bool :=
  match input with
  | Watcher.EventsClosed | Watcher.ErrorsClosed => true
  | _ => false
  end.

(** The [int64] values. *)
Definition int64 (z : Z) : Prop := (Go.min_int64 ≤ z ≤ Go.max_int64)%Z.

(** A host whose fetch fails. *)
Definition Hbroken : Resolver.HostSystem :=
  {| Resolver.InventoryPath := "/dc/host/cluster/h9";
     Resolver.GetAllAccessibleDatastores := inl (Cause "host not responding") |}.

(** Parameters that spell the policy key in two ways. *)
Definition twoPolicySpellings : gmap string string :=
  {[ "StoragePolicyID" := "gold"; "storagepolicyid" := "silver" ]}.

(** Parameters with the affinity key in lower case. *)
Definition lowerCaseAffinity : gmap string string :=
  {[ "affinetohost" := "host-11"; "fstype" := "ext4" ]}.

(** A reload that reads back the credentials the controller is bound to. *)
Definition sameCredentials : Reload.Answers :=
  {| Reload.GetConfig :=
       inr (Some {| config.ClusterID := "domain-c8"; config.Revision := "2" |});
     Reload.GetVirtualCenterConfig := inr (Some Reload.oldConfig);
     Reload.unregisterFault := None;
     Reload.registerFault := None |}.

(** A request that asks for [bytes] bytes. *)
Definition requestOf (bytes : Z) : Create.CreateVolumeRequest :=
  {| Create.ReqName := "pvc";
     Create.GetCapacityRange :=
       Some {| Create.RequiredBytes := bytes; Create.LimitBytes := 0 |};
     Create.Parameters := ∅ |}.

End Facts.

(** * Properties *)

(** ** Datastore resolution *)

Section ResolverFacts.
Import Resolver.

Implicit Types (d sharedDs : DatastoreInfo) (host h : HostSystem).
Implicit Types (hosts pre post : list HostSystem).
Implicit Types (shared accessible acc r : list DatastoreInfo).

Lemma foundByUrl_true d accessible :
  foundByUrl d accessible = true ↔ Url (Info d) ∈ urls accessible.
Proof.
  induction accessible as [|a accessible IH]; simpl.
  - split; [discriminate | intros H; inversion H].
  - destruct (String.eqb_spec (Url (Info d)) (Url (Info a))) as [E|E].
    + split; [intros _; rewrite E; left | done].
    + rewrite IH. split; [by right | intros H].
      apply elem_of_cons in H as [H|H]; [congruence | done].
Qed.

Lemma foundByUrl_decide d accessible :
  foundByUrl d accessible = bool_decide (Url (Info d) ∈ urls accessible).
Proof.
  destruct (foundByUrl d accessible) eqn:E.
  - symmetry. apply bool_decide_eq_true. by apply foundByUrl_true.
  - symmetry. apply bool_decide_eq_false. rewrite <- foundByUrl_true. congruence.
Qed.

Lemma intersectLoop_filter shared accessible acc :
  intersectLoop shared accessible acc
  = acc ++ List.filter (fun d => foundByUrl d accessible) shared.
Proof.
  revert acc. induction shared as [|d shared IH]; intros acc; simpl.
  - by rewrite app_nil_r.
  - rewrite IH. destruct (foundByUrl d accessible); [|done].
    by rewrite <- app_assoc.
Qed.

Lemma intersectLoop_stable shared accessible :
  intersectLoop shared accessible [] = stableIntersection shared accessible.
Proof.
  rewrite intersectLoop_filter. simpl. unfold stableIntersection.
  induction shared as [|d shared IH]; simpl; [done|].
  by rewrite IH, foundByUrl_decide.
Qed.

Lemma length_zero_nil {A} (l : list A) : (length l =? 0)%nat = true ↔ l = [].
Proof. destruct l; simpl; split; (done || discriminate). Qed.

Lemma nextShared_running shared accessible :
  shared ≠ [] → nextShared shared accessible = stableIntersection shared accessible.
Proof.
  intros Hne. unfold nextShared.
  destruct (length shared =? 0)%nat eqn:E.
  - by apply length_zero_nil in E.
  - apply intersectLoop_stable.
Qed.

Lemma nextShared_seed accessible : nextShared [] accessible = accessible.
Proof. reflexivity. Qed.


Lemma stableIntersection_found shared accessible :
  stableIntersection shared accessible
  = List.filter (fun d => foundByUrl d accessible) shared.
Proof.
  unfold stableIntersection. induction shared as [|d shared IH]; simpl; [done|].
  by rewrite IH, foundByUrl_decide.
Qed.

Lemma filter_nil_of_no_match {A} (f : A → bool) (l : list A) :
  (∀ x, x ∈ l → f x = false) → List.filter f l = [].
Proof.
  induction l as [|x l IH]; simpl; intros H; [done|].
  rewrite (H x) by left. apply IH. intros y Hy. apply H. by right.
Qed.

Lemma filter_and {A} (f g : A → bool) (l : list A) :
  List.filter g (List.filter f l) = List.filter (fun x => f x && g x) l.
Proof.
  induction l as [|x l IH]; simpl; [done|].
  destruct (f x); simpl; [destruct (g x)|]; by rewrite IH.
Qed.

(** Folding the stable intersection over the remaining hosts keeps the
    entries of the running set that every one of them can reach. *)
Lemma fold_stableIntersection hosts shared :
  fold_left stableIntersection (map accessibleOf hosts) shared
  = List.filter (sharedByAll hosts) shared.
Proof.
  revert shared. induction hosts as [|h hosts IH]; intros shared; simpl.
  - induction shared as [|d shared IHs]; simpl; [done | by rewrite <- IHs].
  - by rewrite IH, stableIntersection_found, filter_and.
Qed.

(** An error leaves the loop at once: what follows in the host list is not
    looked at. *)
Lemma hostLoop_app pre post shared log :
  hostLoop (pre ++ post) shared log
  = match hostLoop pre shared log with
    | ((shared', None), log') => hostLoop post shared' log'
    | failed => failed
    end.
Proof.
  revert shared log. induction pre as [|h pre IH]; intros shared log; simpl.
  - done.
  - destruct (GetAllAccessibleDatastores h) as [err|accessible]; [done|].
    destruct (length (nextShared shared accessible) =? 0)%nat; [done|].
    apply IH.
Qed.

(** A loop that runs to its end from a non-empty running set has fetched
    every host, and returns the folded stable intersection. *)
Lemma hostLoop_success hosts shared log r log' :
  shared ≠ [] →
  hostLoop hosts shared log = ((r, None), log') →
  Forall (fun h => fetchOk h = true) hosts
  ∧ r = fold_left stableIntersection (map accessibleOf hosts) shared
  ∧ r ≠ []
  ∧ log' = log ++ map FetchAccessible hosts.
Proof.
  revert shared log. induction hosts as [|h hosts IH]; intros shared log Hne; simpl.
  - intros [= <- <-]. by rewrite app_nil_r.
  - assert (accessibleOf h = match GetAllAccessibleDatastores h with
                             | inl _ => [] | inr ds => ds end) as Eacc by done.
    assert (fetchOk h = match GetAllAccessibleDatastores h with
                        | inl _ => false | inr _ => true end) as Eok by done.
    destruct (GetAllAccessibleDatastores h) as [err|accessible]; [done|].
    destruct (length (nextShared shared accessible) =? 0)%nat eqn:El; [done|].
    intros Hrun.
    assert (nextShared shared accessible ≠ []) as Hne'.
    { intros E. apply length_zero_nil in E. congruence. }
    destruct (IH _ _ Hne' Hrun) as (Hok & -> & Hr & ->).
    rewrite Eacc, <- (nextShared_running shared accessible Hne).
    repeat split; [by constructor|done|by rewrite <- app_assoc].
Qed.

(** Conversely the loop runs to its end as soon as every host answers and
    some entry of the running set is reachable from all of them. *)
Lemma hostLoop_complete hosts shared log :
  shared ≠ [] →
  Forall (fun h => fetchOk h = true) hosts →
  List.filter (sharedByAll hosts) shared ≠ [] →
  hostLoop hosts shared log
  = ((List.filter (sharedByAll hosts) shared, None), log ++ map FetchAccessible hosts).
Proof.
  revert shared log. induction hosts as [|h hosts IH]; intros shared log Hne Hok Hsome.
  - simpl. rewrite app_nil_r. do 2 f_equal.
    clear. induction shared as [|d shared IHs]; simpl; [done | by rewrite <- IHs].
  - rewrite <- fold_stableIntersection in *. simpl in *.
    inversion_clear Hok as [|? ? Hh Hrest]. unfold fetchOk, accessibleOf in *.
    destruct (GetAllAccessibleDatastores h) as [err|accessible]; [done|].
    rewrite (nextShared_running shared accessible Hne).
    assert (stableIntersection shared accessible ≠ []) as Hne'.
    { intros E. rewrite E in Hsome. apply Hsome.
      rewrite fold_stableIntersection. done. }
    destruct (length (stableIntersection shared accessible) =? 0)%nat eqn:El.
    { by apply length_zero_nil in El. }
    rewrite fold_stableIntersection in *.
    rewrite (IH _ _ Hne' Hrest Hsome). by rewrite <- app_assoc.
Qed.


Lemma hostLoop_log hosts shared log r log' :
  hostLoop hosts shared log = ((r, None), log') →
  log' = log ++ map FetchAccessible hosts.
Proof.
  revert shared log. induction hosts as [|h hosts IH]; intros shared log; simpl.
  - intros [= _ <-]. by rewrite app_nil_r.
  - destruct (GetAllAccessibleDatastores h) as [err|accessible]; [done|].
    destruct (length (nextShared shared accessible) =? 0)%nat; [done|].
    intros Hrun. rewrite (IH _ _ Hrun). by rewrite <- app_assoc.
Qed.

Lemma hostLoop_error hosts shared log r e log' :
  hostLoop hosts shared log = ((r, Some e), log') → r = [].
Proof.
  revert shared log. induction hosts as [|h hosts IH]; intros shared log; simpl.
  - done.
  - destruct (GetAllAccessibleDatastores h) as [err|accessible]; [by intros [= <- _ _]|].
    destruct (length (nextShared shared accessible) =? 0)%nat;
      [by intros [= <- _ _] | apply IH].
Qed.

Lemma resolve_success h rest r log :
  getSharedDatastoresInPodVMK8SCluster (clusterOf (h :: rest)) = ((r, None), log) →
  Forall (fun h => fetchOk h = true) (h :: rest)
  ∧ r = List.filter (sharedByAll rest) (accessibleOf h)
  ∧ r ≠ []
  ∧ log = map FetchAccessible (h :: rest).
Proof.
  unfold getSharedDatastoresInPodVMK8SCluster, sharedDatastoresOfHosts. simpl.
  unfold fetchOk at 1, accessibleOf.
  destruct (GetAllAccessibleDatastores h) as [err|accessible] eqn:Eh; [done|].
  rewrite nextShared_seed.
  destruct (length accessible =? 0)%nat eqn:El; [done|].
  intros Hrun.
  assert (accessible ≠ []) as Hne.
  { intros E. apply length_zero_nil in E. congruence. }
  destruct (hostLoop_success _ _ _ _ _ Hne Hrun) as (Hok & -> & Hr & ->).
  rewrite fold_stableIntersection in *.
  repeat split; [|done..]. constructor; [|done]. unfold fetchOk. by rewrite Eh.
Qed.

Lemma resolve_complete h rest :
  Forall (fun h => fetchOk h = true) (h :: rest) →
  List.filter (sharedByAll rest) (accessibleOf h) ≠ [] →
  getSharedDatastoresInPodVMK8SCluster (clusterOf (h :: rest))
  = ((List.filter (sharedByAll rest) (accessibleOf h), None),
     map FetchAccessible (h :: rest)).
Proof.
  intros Hok Hsome. inversion_clear Hok as [|? ? Hh Hrest].
  unfold getSharedDatastoresInPodVMK8SCluster, sharedDatastoresOfHosts. simpl.
  unfold fetchOk, accessibleOf in *.
  destruct (GetAllAccessibleDatastores h) as [err|accessible]; [done|].
  rewrite nextShared_seed.
  assert (accessible ≠ []) as Hne by (by intros ->).
  destruct (length accessible =? 0)%nat eqn:El; [by apply length_zero_nil in El|].
  by rewrite (hostLoop_complete rest accessible _ Hne Hrest Hsome).
Qed.

Lemma filter_sublist {A} (f : A → bool) (l : list A) : sublist (List.filter f l) l.
Proof.
  induction l as [|x l IH]; simpl; [constructor|].
  destruct (f x); by constructor.
Qed.

Lemma sharedByAll_true rest d :
  sharedByAll rest d = true ↔ commonUrl rest (Url (Info d)).
Proof.
  unfold sharedByAll, commonUrl. rewrite forallb_forall.
  split; intros H host Hin.
  - apply foundByUrl_true, H. by apply list_elem_of_In.
  - apply foundByUrl_true, H. by apply list_elem_of_In.
Qed.

(** The keys of a successful result are the keys common to all the hosts. *)
Lemma urls_filter_common h rest u :
  u ∈ urls (List.filter (sharedByAll rest) (accessibleOf h)) ↔ commonUrl (h :: rest) u.
Proof.
  unfold urls. rewrite list_elem_of_In, in_map_iff. split.
  - intros (d & <- & Hd). apply filter_In in Hd as [Hd Hall].
    apply sharedByAll_true in Hall. intros host Hhost.
    apply elem_of_cons in Hhost as [->|Hhost]; [|by apply Hall].
    apply list_elem_of_In, in_map_iff. eauto.
  - intros Hc. assert (u ∈ urls (accessibleOf h)) as Hu by (apply Hc; left).
    apply list_elem_of_In, in_map_iff in Hu as (d & <- & Hd).
    exists d. split; [done|]. apply filter_In. split; [done|].
    apply sharedByAll_true. intros host Hhost. apply Hc. by right.
Qed.


(** C2. With two hosts or more, a successful resolution returns the first
    host's accessible set intersected in turn with the accessible set of
    every later host, where an entry of the running set is kept exactly
    when its Url occurs among the Urls of the later host's set; the result
    keeps the order of the running set, hence of the first host's set
    (it is a subsequence of it). *)
Theorem C2_stable_intersection_by_url h1 h2 rest r log :
  getSharedDatastoresInPodVMK8SCluster (clusterOf (h1 :: h2 :: rest)) = ((r, None), log) →
  r = fold_left stableIntersection (map accessibleOf (h2 :: rest)) (accessibleOf h1)
  ∧ sublist r (accessibleOf h1)
  ∧ (∀ d, d ∈ r ↔
          d ∈ accessibleOf h1
          ∧ ∀ host, host ∈ h2 :: rest → Url (Info d) ∈ urls (accessibleOf host)).
Proof.
  intros Hrun. apply resolve_success in Hrun as (_ & -> & _ & _).
  split; [by rewrite fold_stableIntersection|].
  split; [apply filter_sublist|].
  intros d. rewrite list_elem_of_In, filter_In, <- list_elem_of_In, sharedByAll_true.
  done.
Qed.

(** The spec's example: H1 with [A, B, C] and H2 with [B, C, D] resolve to
    [B, C], the entries of H1, in H1's order. *)
Lemma C2_example_H1_H2 :
  getSharedDatastoresInPodVMK8SCluster
    (clusterOf [ResolverExample.H1; ResolverExample.H2])
  = (([ResolverExample.B; ResolverExample.C], None),
     [FetchAccessible ResolverExample.H1; FetchAccessible ResolverExample.H2])
  ∧ [ResolverExample.B; ResolverExample.C]
    = fold_left stableIntersection
        (map accessibleOf [ResolverExample.H2]) (accessibleOf ResolverExample.H1).
Proof.
  split; [reflexivity|].
  apply (C2_stable_intersection_by_url ResolverExample.H1 ResolverExample.H2 []
           [ResolverExample.B; ResolverExample.C]
           [FetchAccessible ResolverExample.H1; FetchAccessible ResolverExample.H2]).
  reflexivity.
Defined.

(** C3. Resolution fails fast. An empty host list gives the empty-hosts
    error before any fetch. When the loop has reached host [h] (it ran
    through [pre] without error) and the running set is empty after [h],
    the call fails with the no-shared-datastores error naming [h], and the
    fetches are those of [pre] and [h]: no host of [post] is asked. Every
    failing call returns the empty list, and a host that reports no
    datastore at all makes the call fail. *)
Theorem C3_resolution_fails_fast :
  getSharedDatastoresInPodVMK8SCluster (clusterOf []) = (([], Some ErrEmptyHosts), [])
  ∧ (∀ pre h post shared accessible log,
       hostLoop pre [] [] = ((shared, None), log) →
       GetAllAccessibleDatastores h = inr accessible →
       nextShared shared accessible = [] →
       getSharedDatastoresInPodVMK8SCluster (clusterOf (pre ++ h :: post))
       = (([], Some (ErrNoSharedDatastores h)), map FetchAccessible (pre ++ [h])))
  ∧ (∀ c r e log,
       getSharedDatastoresInPodVMK8SCluster c = ((r, Some e), log) → r = [])
  ∧ (∀ hosts h,
       h ∈ hosts → GetAllAccessibleDatastores h = inr [] →
       snd (fst (getSharedDatastoresInPodVMK8SCluster (clusterOf hosts))) ≠ None).
Proof.
  split; [reflexivity|]. split; [|split].
  - intros pre h post shared accessible log Hpre Hh Hempty.
    assert (getSharedDatastoresInPodVMK8SCluster (clusterOf (pre ++ h :: post))
            = hostLoop (pre ++ h :: post) [] []) as ->.
    { unfold getSharedDatastoresInPodVMK8SCluster, sharedDatastoresOfHosts. simpl.
      by destruct pre. }
    rewrite hostLoop_app, Hpre. simpl. rewrite Hh, Hempty. simpl.
    rewrite (hostLoop_log _ _ _ _ _ Hpre). simpl. by rewrite map_app.
  - intros c r e log. unfold getSharedDatastoresInPodVMK8SCluster.
    destruct (GetVCenter c); [by intros [= <- _ _]|].
    destruct (GetHostsByCluster c) as [err|hosts]; [by intros [= <- _ _]|].
    unfold sharedDatastoresOfHosts.
    destruct (length hosts =? 0)%nat; [by intros [= <- _ _]|].
    apply hostLoop_error.
  - intros hosts h Hin Hh Hnone.
    destruct hosts as [|h1 rest]; [inversion Hin|].
    destruct (getSharedDatastoresInPodVMK8SCluster (clusterOf (h1 :: rest)))
      as [[r e] log] eqn:Hrun.
    simpl in Hnone. subst e.
    apply resolve_success in Hrun as (_ & -> & Hne & _). apply Hne.
    apply elem_of_cons in Hin as [<-|Hin].
    + unfold accessibleOf. by rewrite Hh.
    + apply filter_nil_of_no_match. intros d _.
      destruct (sharedByAll rest d) eqn:E; [|done].
      apply sharedByAll_true in E. specialize (E h Hin).
      unfold accessibleOf in E. rewrite Hh in E. inversion E.
Qed.

(** A run of C3: H3 shares nothing with H1, so the call fails at H3 and
    H2, which comes after it, is never asked. *)
Lemma C3_example_short_circuit :
  getSharedDatastoresInPodVMK8SCluster
    (clusterOf ([ResolverExample.H1] ++ ResolverExample.H3 :: [ResolverExample.H2]))
  = (([], Some (ErrNoSharedDatastores ResolverExample.H3)),
     map FetchAccessible ([ResolverExample.H1] ++ [ResolverExample.H3])).
Proof.
  apply (proj1 (proj2 C3_resolution_fails_fast)
           [ResolverExample.H1] ResolverExample.H3 [ResolverExample.H2]
           [ResolverExample.A; ResolverExample.B; ResolverExample.C]
           [ResolverExample.D] [FetchAccessible ResolverExample.H1]);
    reflexivity.
Defined.

(** C4, as the code has it. With exactly one host whose fetch answers with
    [ds], resolution returns [ds] itself, in its order and after that
    single fetch, when [ds] is not empty; when [ds] is empty it fails with
    the no-shared-datastores error naming the host. *)
Theorem C4_single_host h ds :
  GetAllAccessibleDatastores h = inr ds →
  getSharedDatastoresInPodVMK8SCluster (clusterOf [h])
  = (match ds with
     | [] => ([], Some (ErrNoSharedDatastores h))
     | _ :: _ => (ds, None)
     end, [FetchAccessible h]).
Proof.
  intros Hh. unfold getSharedDatastoresInPodVMK8SCluster, sharedDatastoresOfHosts.
  simpl. rewrite Hh, nextShared_seed. by destruct ds.
Qed.

Lemma C4_example_single_host :
  getSharedDatastoresInPodVMK8SCluster (clusterOf [ResolverExample.H1])
  = (([ResolverExample.A; ResolverExample.B; ResolverExample.C], None),
     [FetchAccessible ResolverExample.H1]).
Proof.
  apply (C4_single_host ResolverExample.H1
           [ResolverExample.A; ResolverExample.B; ResolverExample.C]).
  reflexivity.
Defined.

(** C4 as stated fails: a single host with an empty accessible set does not
    get its (empty) set back, the call ends in an error. *)
Lemma C4_counterexample_empty_set :
  GetAllAccessibleDatastores ResolverExample.H0 = inr []
  ∧ fst (getSharedDatastoresInPodVMK8SCluster (clusterOf [ResolverExample.H0]))
    = ([], Some (ErrNoSharedDatastores ResolverExample.H0))
  ∧ fst (getSharedDatastoresInPodVMK8SCluster (clusterOf [ResolverExample.H0]))
    ≠ (accessibleOf ResolverExample.H0, None).
Proof. split; [reflexivity|]. split; [reflexivity | discriminate]. Qed.

Lemma commonUrl_perm hosts hosts' u :
  hosts ≡ₚ hosts' → commonUrl hosts u → commonUrl hosts' u.
Proof.
  intros Hp Hc host Hin. apply Hc. by rewrite Hp.
Qed.

(** C7. When resolution succeeds on a host list, it succeeds on every
    permutation of it, and the two results have the same set of Urls; the
    order of each result is that of the first host visited (the result is
    a subsequence of that host's accessible set). *)
Theorem C7_key_set_order_independent hosts hosts' r log :
  hosts ≡ₚ hosts' →
  getSharedDatastoresInPodVMK8SCluster (clusterOf hosts) = ((r, None), log) →
  ∃ r' log',
    getSharedDatastoresInPodVMK8SCluster (clusterOf hosts') = ((r', None), log')
    ∧ (∀ u, u ∈ urls r ↔ u ∈ urls r')
    ∧ (∀ h' rest', hosts' = h' :: rest' → sublist r' (accessibleOf h')).
Proof.
  intros Hp Hrun.
  destruct hosts as [|h rest]; [done|].
  destruct hosts' as [|h' rest'].
  { by apply Permutation_nil_r in Hp. }
  apply resolve_success in Hrun as (Hok & -> & Hne & _).
  assert (Forall (fun h => fetchOk h = true) (h' :: rest')) as Hok' by (by rewrite <- Hp).
  assert (List.filter (sharedByAll rest') (accessibleOf h') ≠ []) as Hne'.
  { destruct (List.filter (sharedByAll rest) (accessibleOf h)) as [|d r] eqn:Er; [done|].
    assert (Url (Info d) ∈ urls (List.filter (sharedByAll rest) (accessibleOf h))) as Hu.
    { rewrite Er. left. }
    apply urls_filter_common, (commonUrl_perm _ _ _ Hp), urls_filter_common in Hu.
    intros E. rewrite E in Hu. inversion Hu. }
  eexists _, _. split; [by apply resolve_complete|]. split.
  - intros u. rewrite !urls_filter_common.
    split; apply commonUrl_perm; [done | by symmetry].
  - intros ? ? [= <- <-]. apply filter_sublist.
Qed.

Lemma C7_example_swapped_hosts :
  ∃ r' log',
    getSharedDatastoresInPodVMK8SCluster
      (clusterOf [ResolverExample.H2; ResolverExample.H1]) = ((r', None), log')
    ∧ (∀ u, u ∈ urls [ResolverExample.B; ResolverExample.C] ↔ u ∈ urls r')
    ∧ (∀ h' rest', [ResolverExample.H2; ResolverExample.H1] = h' :: rest' →
                   sublist r' (accessibleOf h')).
Proof.
  apply (C7_key_set_order_independent
           [ResolverExample.H1; ResolverExample.H2]
           [ResolverExample.H2; ResolverExample.H1]
           [ResolverExample.B; ResolverExample.C]
           [FetchAccessible ResolverExample.H1; FetchAccessible ResolverExample.H2]).
  - apply perm_swap.
  - reflexivity.
Defined.

End ResolverFacts.

(** ** Request normalisation in [CreateVolume] *)

Section CreateFacts.
Import Common Create.

Local Open Scope Z_scope.

Lemma wrap64_small z :
  Go.min_int64 ≤ z ≤ Go.max_int64 → Go.wrap64 z = z.
Proof.
  unfold Go.wrap64, Go.min_int64, Go.max_int64. intros H.
  rewrite Z.mod_small; lia.
Qed.

Lemma default_size : Go.wrap64 (DefaultGbDiskSize * GbInBytes) = 10737418240.
Proof. reflexivity. Qed.

(** [RoundUpSize] is the ceiling of the quotient, for every [int64] byte
    count and a positive unit. *)
Lemma RoundUpSize_ceiling bytes unit :
  0 < unit → Go.min_int64 ≤ bytes ≤ Go.max_int64 →
  (RoundUpSize bytes unit - 1) * unit < bytes ≤ RoundUpSize bytes unit * unit.
Proof.
  intros Hunit Hrange. unfold RoundUpSize.
  pose proof (Z.quot_rem' bytes unit) as Hqr.
  destruct (Z.le_gt_cases 0 bytes) as [Hpos|Hneg].
  - pose proof (Z.rem_bound_pos bytes unit Hpos Hunit) as Hr.
    assert (0 ≤ bytes ÷ unit) as Hq by (apply Z.quot_pos; lia).
    destruct (0 <? Z.rem bytes unit) eqn:Hrem.
    + apply Z.ltb_lt in Hrem.
      rewrite wrap64_small; [nia|].
      unfold Go.min_int64, Go.max_int64 in *. nia.
    + apply Z.ltb_ge in Hrem. nia.
  - pose proof (Z.rem_bound_pos_neg bytes unit Hunit (Z.lt_le_incl _ _ Hneg)) as Hr.
    destruct (0 <? Z.rem bytes unit) eqn:Hrem.
    + apply Z.ltb_lt in Hrem. lia.
    + nia.
Qed.



Local Close Scope Z_scope.

Lemma keys_distinct : AttributeStoragePolicyID ≠ AttributeAffineToHost.
Proof. discriminate. Qed.

Lemma scanParameter_policy P vars paramName :
  foldsTo AttributeStoragePolicyID paramName = true →
  scanParameter P vars paramName = (Go.index P paramName, snd vars).
Proof. unfold scanParameter, foldsTo. by intros ->. Qed.

Lemma scanParameter_affinity P vars paramName :
  foldsTo AttributeAffineToHost paramName = true →
  scanParameter P vars paramName = (fst vars, Go.index P AttributeAffineToHost).
Proof.
  unfold scanParameter, foldsTo. intros Haff. rewrite Haff.
  destruct (String.eqb_spec (Go.ToLower paramName) AttributeStoragePolicyID) as [E|_];
    [|done].
  apply String.eqb_eq in Haff. rewrite E in Haff. by destruct keys_distinct.
Qed.

Lemma scanParameter_other P vars paramName :
  foldsTo AttributeStoragePolicyID paramName = false →
  foldsTo AttributeAffineToHost paramName = false →
  scanParameter P vars paramName = vars.
Proof. unfold scanParameter, foldsTo. by intros -> ->. Qed.

(** The storage policy id is the value stored under the name visited last
    among those that fold to the policy key: the lookup uses the name as
    the request spells it. *)
Lemma scanParameters_policy order paramName later P :
  foldsTo AttributeStoragePolicyID paramName = true →
  Forall (fun k => foldsTo AttributeStoragePolicyID k = false) later →
  fst (scanParameters (order ++ paramName :: later) P) = Go.index P paramName.
Proof.
  intros Hp Hlater. unfold scanParameters.
  rewrite fold_left_app. simpl. rewrite (scanParameter_policy _ _ _ Hp).
  generalize (snd (fold_left (scanParameter P) order ("", ""))). intros aff.
  revert aff. induction Hlater as [|k later Hk _ IH]; intros aff; simpl; [done|].
  destruct (foldsTo AttributeAffineToHost k) eqn:Ha.
  - rewrite (scanParameter_affinity _ _ _ Ha). apply IH.
  - rewrite (scanParameter_other _ _ _ Hk Ha). apply IH.
Qed.

(** The affinity hint is never read under the name the request spells: as
    soon as some name folds to the affinity key, it is whatever the map
    holds under the lower-case key itself, the empty string when the map
    has no such key. *)
Lemma scanParameters_affinity order P :
  snd (scanParameters order P)
  = if existsb (foldsTo AttributeAffineToHost) order
    then Go.index P AttributeAffineToHost
    else "".
Proof.
  unfold scanParameters.
  assert (∀ vars,
    snd (fold_left (scanParameter P) order vars)
    = if existsb (foldsTo AttributeAffineToHost) order
      then Go.index P AttributeAffineToHost else snd vars) as Hgen.
  { induction order as [|k order IH]; intros vars; simpl; [done|].
    rewrite IH. destruct (foldsTo AttributeAffineToHost k) eqn:Ha; simpl.
    - rewrite (scanParameter_affinity _ _ _ Ha). simpl. by destruct (existsb _ order).
    - destruct (foldsTo AttributeStoragePolicyID k) eqn:Hp.
      + by rewrite (scanParameter_policy _ _ _ Hp).
      + by rewrite (scanParameter_other _ _ _ Hp Ha). }
  by rewrite Hgen.
Qed.

(** C5, at the input where the code departs from it. The upper-case policy
    key of the spec's example is found and its value "p1" extracted. A
    request whose only parameter is "AffineToHost" = "host-11" has a name
    that folds to the affinity key, yet the scan leaves the affinity hint
    empty, and the spec handed to the volume manager carries the empty
    hint: the value is looked up under "affinetohost", which the request
    does not contain. *)
Theorem C5_affinity_value_read_under_lowercase_key :
  scanParameters ["STORAGEPOLICYID"] (Parameters upperCasePolicyRequest) = ("p1", "")
  ∧ foldsTo AttributeAffineToHost "AffineToHost" = true
  ∧ Parameters mixedCaseAffinityRequest !! "AffineToHost" = Some "host-11"
  ∧ scanParameters ["AffineToHost"] (Parameters mixedCaseAffinityRequest) = ("", "")
  ∧ snd (CreateVolume (allGood ["AffineToHost"]) mixedCaseAffinityRequest)
    = map Resolve [Resolver.FetchAccessible ResolverExample.H1;
                   Resolver.FetchAccessible ResolverExample.H2]
      ++ [CreateBlockVolume
            {| CapacityMB := 10240; Name := "pvc-2"; StoragePolicyID := "";
               AffineToHost := ""; VolumeType := BlockVolumeType |}
            [ResolverExample.B; ResolverExample.C]].
Proof. repeat split; vm_compute; reflexivity. Qed.

End CreateFacts.

(** ** Configuration reload *)

Section ReloadFacts.
Import VSphere Reload.

Lemma selectVirtualCenter_differ env newVCConfig c :
  credentialsDiffer (VcenterConfig (manager c)) newVCConfig = true →
  selectVirtualCenter env newVCConfig c
  = match unregisterFault env, registerFault env with
    | Some _, _ => (c, None, [UnregisterAll])
    | None, Some _ =>
        ({| manager := manager c; virtualCenters := ∅ |}, None,
         [UnregisterAll; Register newVCConfig])
    | None, None =>
        ({| manager := {| VcenterConfig := VcenterConfig (manager c);
                          CnsConfig := CnsConfig (manager c);
                          VolumeManagerOf := VolumeManagerOf (manager c);
                          VcenterManager := theVirtualCenterManager |};
            virtualCenters := {[ Host newVCConfig := {| Config := newVCConfig |} ]} |},
         Some {| Config := newVCConfig |},
         [UnregisterAll; Register newVCConfig])
    end.
Proof.
  intros Hdiff. unfold selectVirtualCenter. rewrite Hdiff.
  destruct (unregisterFault env) as [e|]; simpl; [by destruct c|].
  by destruct (registerFault env) as [e|]; simpl; [|rewrite insert_empty].
Qed.

(** C1, as the code has it. When the host, the user name or the password
    of the new endpoint configuration differs from the active one, the
    reload calls the deregistration of all sessions first and, only when
    that succeeded, the registration of the new endpoint configuration.
    When either of the two fails, the reload returns with every field of
    the manager as it was (the volume manager handle is still bound to the
    previous session), and nothing else is called. The registry is not
    restored: after a deregistration that succeeded and a registration
    that failed it is empty. When both succeed, the manager is bound to
    the new session and configuration. *)
Theorem C1_failed_reload_keeps_manager_fields env c cfg newVCConfig :
  GetConfig env = inr cfg →
  GetVirtualCenterConfig env = inr (Some newVCConfig) →
  credentialsDiffer (VcenterConfig (manager c)) newVCConfig = true →
  (∀ err, unregisterFault env = Some err →
     snd (ReloadConfiguration env c) = [UnregisterAll]
     ∧ manager (fst (ReloadConfiguration env c)) = manager c)
  ∧ (∀ err, unregisterFault env = None → registerFault env = Some err →
       snd (ReloadConfiguration env c) = [UnregisterAll; Register newVCConfig]
       ∧ manager (fst (ReloadConfiguration env c)) = manager c
       ∧ virtualCenters (fst (ReloadConfiguration env c)) = ∅)
  ∧ (unregisterFault env = None → registerFault env = None →
       snd (ReloadConfiguration env c)
       = [UnregisterAll; Register newVCConfig; ResetManager {| Config := newVCConfig |}]
       ∧ VcenterConfig (manager (fst (ReloadConfiguration env c))) = newVCConfig
       ∧ VolumeManagerOf (manager (fst (ReloadConfiguration env c)))
         = {| virtualCenter := {| Config := newVCConfig |} |}
       ∧ GetVirtualCenter (Host newVCConfig)
           (virtualCenters (fst (ReloadConfiguration env c)))
         = (Some {| Config := newVCConfig |}, None)).
Proof.
  intros Hcfg Hvc Hdiff. unfold ReloadConfiguration.
  rewrite Hcfg, Hvc, (selectVirtualCenter_differ _ _ _ Hdiff).
  split; [|split].
  - by intros err ->.
  - by intros err -> ->.
  - intros -> ->. simpl. repeat split.
    + by destruct cfg.
    + by destruct cfg.
    + assert (virtualCenters
                (updateCnsConfig cfg
                   (bindVirtualCenter {| Config := newVCConfig |} newVCConfig
                      {| manager :=
                           {| VcenterConfig := VcenterConfig (manager c);
                              CnsConfig := CnsConfig (manager c);
                              VolumeManagerOf := VolumeManagerOf (manager c);
                              VcenterManager := theVirtualCenterManager |};
                         virtualCenters :=
                           {[ Host newVCConfig := {| Config := newVCConfig |} ]} |}))
              = {[ Host newVCConfig := {| Config := newVCConfig |} ]}) as ->
        by (by destruct cfg).
      unfold GetVirtualCenter. by rewrite lookup_singleton_eq.
Qed.

(** With unchanged credentials the session is looked up, not registered
    again: no deregistration, no registration, and the registry is left as
    it is. *)
Lemma reload_same_credentials env c cfg newVCConfig vcenter :
  GetConfig env = inr cfg →
  GetVirtualCenterConfig env = inr (Some newVCConfig) →
  credentialsDiffer (VcenterConfig (manager c)) newVCConfig = false →
  virtualCenters c !! Host newVCConfig = Some vcenter →
  snd (ReloadConfiguration env c) = [Lookup (Host newVCConfig); ResetManager vcenter]
  ∧ virtualCenters (fst (ReloadConfiguration env c)) = virtualCenters c
  ∧ VolumeManagerOf (manager (fst (ReloadConfiguration env c)))
    = {| virtualCenter := vcenter |}.
Proof.
  intros Hcfg Hvc Hsame Hreg. unfold ReloadConfiguration, selectVirtualCenter.
  rewrite Hcfg, Hvc, Hsame. unfold GetVirtualCenter. rewrite Hreg. simpl.
  by destruct cfg.
Qed.

Lemma reload_example_success :
  ReloadConfiguration reloadSucceeds boundToOld
  = ({| manager := {| VcenterConfig := newConfig;
                      CnsConfig := {| config.ClusterID := "domain-c8";
                                      config.Revision := "2" |};
                      VolumeManagerOf := {| virtualCenter := {| Config := newConfig |} |};
                      VcenterManager := theVirtualCenterManager |};
        virtualCenters := {[ "vc-new" := {| Config := newConfig |} ]} |},
     [UnregisterAll; Register newConfig; ResetManager {| Config := newConfig |}]).
Proof. by vm_compute. Qed.

(** A reload towards "vc-new" whose registration fails, on a controller
    bound to "vc-old". *)
Lemma C1_example_registration_fails :
  snd (ReloadConfiguration registrationFails boundToOld)
  = [UnregisterAll; Register newConfig]
  ∧ manager (fst (ReloadConfiguration registrationFails boundToOld)) = manager boundToOld
  ∧ virtualCenters (fst (ReloadConfiguration registrationFails boundToOld)) = ∅.
Proof.
  apply (proj1 (proj2 (C1_failed_reload_keeps_manager_fields
                         registrationFails boundToOld _ newConfig
                         eq_refl eq_refl eq_refl))
           (Cause "cannot register") eq_refl eq_refl).
Defined.

(** C1 as stated fails. The registration fails after the deregistration
    went through: the manager's fields are as before, but the lookup by
    which a later publish call obtains its session (line 307) found the
    previous session before the reload and finds none after it. *)
Lemma C1_counterexample_previous_session_gone :
  credentialsDiffer (VcenterConfig (manager boundToOld)) newConfig = true
  ∧ unregisterFault registrationFails = None
  ∧ registerFault registrationFails = Some (Cause "cannot register")
  ∧ manager (fst (ReloadConfiguration registrationFails boundToOld)) = manager boundToOld
  ∧ GetVirtualCenter "vc-old" (virtualCenters boundToOld) = (Some oldSession, None)
  ∧ GetVirtualCenter "vc-old"
      (virtualCenters (fst (ReloadConfiguration registrationFails boundToOld)))
    = (None, Some ErrVCNotFound)
  ∧ Attach.prepareAttach Attach.registeredHost boundToOld Attach.publishRequest
    = Go.Returned (oldSession, "vm-42")
  ∧ Attach.prepareAttach Attach.registeredHost
      (fst (ReloadConfiguration registrationFails boundToOld)) Attach.publishRequest
    = Go.Panicked Go.NilPointerDereference.
Proof. repeat split; vm_compute; reflexivity. Qed.

End ReloadFacts.

(** ** Publish and unpublish *)

Section AttachFacts.
Import VSphere Attach.

(** Whenever the lookup of the configured host finds no session, the
    publish call does not get as far as building its error. *)
Lemma prepareAttach_lookup_failure env c req vmuuid vcdcMap :
  validateWCPControllerPublishVolumeRequest env req = None →
  getVMUUIDFromPodListenerService env (VolumeId req) (NodeId req) = inr vmuuid →
  getDatacenterFromConfig env (CnsConfig (manager c)) = inr vcdcMap →
  virtualCenters c !! fst (lastEntry vcdcMap) = None →
  prepareAttach env c req = Go.Panicked Go.NilPointerDereference.
Proof.
  intros Hvalid Hvm Hdc Hlookup. unfold prepareAttach.
  rewrite Hvalid, Hvm, Hdc. simpl.
  destruct (lastEntry vcdcMap) as [vCenterHost dcMorefValue]. simpl in Hlookup.
  unfold GetVirtualCenter. by rewrite Hlookup.
Qed.

(** C10, at the input where the code departs from it. The configured host
    "vc-gone" has no registered session, so the lookup returns no session
    handle together with an error; the error branch then reads the host
    through the absent handle and the call ends in a nil-pointer panic
    instead of returning an internal-class error. *)
Theorem C10_lookup_failure_dereferences_nil :
  GetVirtualCenter "vc-gone" (virtualCenters (ctl freshWorld))
  = (None, Some ErrVCNotFound)
  ∧ fst (ControllerPublishVolume unregisteredHost freshWorld publishRequest)
    = Go.Panicked Go.NilPointerDereference
  ∧ ∀ code message,
      fst (ControllerPublishVolume unregisteredHost freshWorld publishRequest)
      ≠ Go.Failed (Status.Errorf code message).
Proof. repeat split; [vm_compute; reflexivity..|]. intros code message. by vm_compute. Qed.

(** C9. When the validation accepts the request, the unpublish call
    returns the empty response, whatever the world it runs in (so also
    after an attach), and leaves the world as it is: no call reaches the
    volume manager. When the validation rejects the request, its error is
    returned as it came. *)
Theorem C9_unpublish_is_a_no_op validate w req :
  (validate req = None →
     ControllerUnpublishVolume validate w req
     = (Go.Returned Build_ControllerUnpublishVolumeResponse, w))
  ∧ (∀ err, validate req = Some err →
       ControllerUnpublishVolume validate w req = (Go.Failed (Status.Validation err), w))
  ∧ (∀ w', fst (ControllerUnpublishVolume validate w' req)
           = fst (ControllerUnpublishVolume validate w req))
  ∧ history (snd (ControllerUnpublishVolume validate w req)) = history w
  ∧ (∀ resp, fst (ControllerUnpublishVolume validate w req) = Go.Returned resp
             ↔ validate req = None).
Proof.
  unfold ControllerUnpublishVolume.
  split; [by intros ->|]. split; [by intros err ->|].
  split; [intros w'; by destruct (validate req)|].
  split; [by destruct (validate req)|].
  intros []. by destruct (validate req).
Qed.

(** An unpublish that follows a successful publish: the response is empty
    and the attach is still the only entry of the history. *)
Lemma C9_example_unpublish_after_publish :
  ControllerUnpublishVolume (fun _ => None)
    (snd (ControllerPublishVolume registeredHost freshWorld publishRequest))
    unpublishRequest
  = (Go.Returned Build_ControllerUnpublishVolumeResponse,
     snd (ControllerPublishVolume registeredHost freshWorld publishRequest)).
Proof.
  apply (proj1 (C9_unpublish_is_a_no_op (fun _ => None)
                  (snd (ControllerPublishVolume registeredHost freshWorld publishRequest))
                  unpublishRequest)).
  reflexivity.
Defined.

Lemma publish_example_history :
  history (snd (ControllerPublishVolume registeredHost freshWorld publishRequest))
  = [AttachVolume "vm-42" "volume-1"].
Proof. reflexivity. Qed.

End AttachFacts.

(** ** The watcher loop *)

Section WatcherFacts.
Import VSphere Watcher.

Lemma isRemove_bit event : isRemove event = N.testbit (Op event) 2.
Proof.
  unfold isRemove, Remove.
  destruct (N.testbit (Op event) 2) eqn:Hbit.
  - apply N.eqb_eq, N.bits_inj. intros n. rewrite N.land_spec.
    destruct (N.eq_dec n 2) as [->|Hn]; [by rewrite Hbit|].
    replace (N.testbit 4 n) with false; [by rewrite andb_false_r|].
    change 4%N with (2 ^ 2)%N. symmetry. by apply N.pow2_bits_false.
  - apply N.eqb_neq. intros E.
    assert (N.testbit (N.land (Op event) 4) 2 = true) as Hland by (by rewrite E).
    rewrite N.land_spec, Hbit in Hland. done.
Qed.

Lemma reloads_app trace trace' : reloads (trace ++ trace') = reloads trace ++ reloads trace'.
Proof. apply omap_app. Qed.

(** The loop extends the trace it is given, ends in the controller left by
    the reloads of the removal events, and records one reload for each of
    them. *)
Lemma watchLoop_trace inputs c trace :
  ∃ added st,
    watchLoop inputs c trace = (afterReloads inputs c, trace ++ added, st)
    ∧ length (reloads added) = length (List.filter isRemoval (delivered inputs)).
Proof.
  revert c trace. induction inputs as [|input rest IH]; intros c trace.
  - by exists [Waiting], Blocked.
  - destruct input as [event answers| |err|]; simpl.
    + unfold afterReloads. simpl. fold (afterReloads rest).
      destruct (isRemove event) eqn:Hrm.
      * destruct (Reload.ReloadConfiguration answers c) as [c' calls]. simpl.
        edestruct (IH c') as (added & st & Heq & Hlen). rewrite Heq.
        exists ([Waiting; GotEvent event; Reloaded calls; Processed] ++ added), st.
        split; [by rewrite <- !app_assoc|].
        rewrite reloads_app, length_app, Hlen. done.
      * edestruct (IH c) as (added & st & Heq & Hlen). rewrite Heq.
        exists ([Waiting; GotEvent event; Processed] ++ added), st.
        split; [by rewrite <- !app_assoc|].
        rewrite reloads_app, length_app, Hlen. done.
    + by exists [Waiting], Terminated.
    + unfold afterReloads. simpl. fold (afterReloads rest).
      edestruct (IH c) as (added & st & Heq & Hlen). rewrite Heq.
      exists ([Waiting; Processed] ++ added), st.
      split; [by rewrite <- !app_assoc|].
      rewrite reloads_app, length_app, Hlen. done.
    + by exists [Waiting], Terminated.
Qed.

(** C8. An event delivered to the loop makes it call the reload exactly
    once when its operation has the removal bit, and not at all otherwise;
    the rest of the inputs is handled after that call has returned, on the
    controller it left. Over a whole run the trace holds as many reloads
    as removal events were delivered. *)
Theorem C8_reload_once_per_removal_event :
  (∀ event answers rest c trace,
     watchLoop (FromEvents event answers :: rest) c trace
     = watchLoop rest
         (if isRemove event then fst (Reload.ReloadConfiguration answers c) else c)
         (trace ++ [Waiting; GotEvent event]
            ++ (if isRemove event
                then [Reloaded (snd (Reload.ReloadConfiguration answers c))]
                else [])
            ++ [Processed]))
  ∧ (∀ event, isRemove event = true ↔ N.testbit (Op event) 2 = true)
  ∧ (∀ inputs c,
       length (reloads (snd (fst (watchLoop inputs c []))))
       = length (List.filter isRemoval (delivered inputs))
       ∧ fst (fst (watchLoop inputs c [])) = afterReloads inputs c).
Proof.
  split; [|split].
  - intros event answers rest c trace. simpl.
    destruct (isRemove event).
    + destruct (Reload.ReloadConfiguration answers c) as [c' calls]. simpl.
      by rewrite <- !app_assoc.
    + by rewrite <- !app_assoc.
  - intros event. by rewrite isRemove_bit.
  - intros inputs c.
    destruct (watchLoop_trace inputs c []) as (added & st & -> & Hlen). done.
Qed.

(** A creation, a write and a change of mode trigger nothing; a removal,
    alone or combined with another operation, triggers the reload. *)
Lemma isRemove_examples :
  isRemove {| Name := "/etc/cloud/csi-vsphere.conf"; Op := Create |} = false
  ∧ isRemove {| Name := "/etc/cloud/csi-vsphere.conf"; Op := Write |} = false
  ∧ isRemove {| Name := "/etc/cloud/csi-vsphere.conf"; Op := N.lor Write Chmod |} = false
  ∧ isRemove {| Name := "/etc/cloud/csi-vsphere.conf"; Op := Remove |} = true
  ∧ isRemove {| Name := "/etc/cloud/csi-vsphere.conf"; Op := N.lor Remove Rename |} = true.
Proof. repeat split. Qed.

End WatcherFacts.

(** * Further properties of the controller *)

(** ** Datastore resolution *)

Section ResolverMore.
Import Resolver.

Implicit Types (d : DatastoreInfo) (host h : HostSystem).
Implicit Types (hosts pre post : list HostSystem).
Implicit Types (shared accessible r : list DatastoreInfo).

Lemma resolve_is_hostLoop hosts :
  hosts ≠ [] →
  getSharedDatastoresInPodVMK8SCluster (clusterOf hosts) = hostLoop hosts [] [].
Proof. by destruct hosts. Qed.

Lemma stableIntersection_all shared accessible :
  (∀ d, d ∈ shared → Url (Info d) ∈ urls accessible) →
  stableIntersection shared accessible = shared.
Proof.
  unfold stableIntersection. induction shared as [|d shared IH]; intros Hall; simpl; [done|].
  rewrite bool_decide_eq_true_2 by (apply Hall; left).
  rewrite IH; [done|]. intros d' Hd'. apply Hall. by right.
Qed.

(** X1. Resolution succeeds exactly when the host list is not empty, every
    host answers its fetch, and some Url is accessible from all the hosts. *)
Theorem X1_resolution_succeeds_iff hosts :
  snd (fst (getSharedDatastoresInPodVMK8SCluster (clusterOf hosts))) = None
  ↔ hosts ≠ [] ∧ Forall (fun h => fetchOk h = true) hosts ∧ ∃ u, commonUrl hosts u.
Proof.
  split.
  - destruct hosts as [|h rest]; [done|].
    destruct (getSharedDatastoresInPodVMK8SCluster (clusterOf (h :: rest)))
      as [[r e] log] eqn:Hrun.
    simpl. intros ->. apply resolve_success in Hrun as (Hok & -> & Hne & _).
    split; [done|]. split; [done|].
    destruct (List.filter (sharedByAll rest) (accessibleOf h)) as [|d r] eqn:Er; [done|].
    exists (Url (Info d)). apply urls_filter_common. rewrite Er. left.
  - intros (Hne & Hok & u & Hu). destruct hosts as [|h rest]; [done|].
    rewrite resolve_complete; [done..|].
    apply urls_filter_common in Hu. intros E. rewrite E in Hu. inversion Hu.
Qed.

(** X2. The Urls of a successful result are exactly the Urls accessible from
    every host of the cluster: none is missing and none is added. *)
Theorem X2_result_keys_are_the_common_keys hosts r log :
  getSharedDatastoresInPodVMK8SCluster (clusterOf hosts) = ((r, None), log) →
  ∀ u, u ∈ urls r ↔ commonUrl hosts u.
Proof.
  intros Hrun u. destruct hosts as [|h rest]; [done|].
  apply resolve_success in Hrun as (_ & -> & _ & _). apply urls_filter_common.
Qed.

Lemma X2_example_common_keys :
  "ds:///vmfs/volumes/b/" ∈ urls [ResolverExample.B; ResolverExample.C]
  ↔ commonUrl [ResolverExample.H1; ResolverExample.H2] "ds:///vmfs/volumes/b/".
Proof.
  apply (X2_result_keys_are_the_common_keys
           [ResolverExample.H1; ResolverExample.H2]
           [ResolverExample.B; ResolverExample.C]
           [FetchAccessible ResolverExample.H1; FetchAccessible ResolverExample.H2]).
  reflexivity.
Defined.

(** X3. When the loop has reached host [h] and the fetch of [h] fails, the
    call fails with that very error and the empty list, and no later host is
    fetched. *)
Theorem X3_fetch_error_is_propagated pre h post shared log err :
  hostLoop pre [] [] = ((shared, None), log) →
  GetAllAccessibleDatastores h = inl err →
  getSharedDatastoresInPodVMK8SCluster (clusterOf (pre ++ h :: post))
  = (([], Some (ErrCause err)), map FetchAccessible (pre ++ [h])).
Proof.
  intros Hpre Hh. rewrite resolve_is_hostLoop by (by destruct pre).
  rewrite hostLoop_app, Hpre. simpl. rewrite Hh.
  rewrite (hostLoop_log _ _ _ _ _ Hpre). simpl. by rewrite map_app.
Qed.

Lemma X3_example_broken_host :
  getSharedDatastoresInPodVMK8SCluster
    (clusterOf ([ResolverExample.H1] ++ Facts.Hbroken :: [ResolverExample.H2]))
  = (([], Some (ErrCause (Cause "host not responding"))),
     map FetchAccessible ([ResolverExample.H1] ++ [Facts.Hbroken])).
Proof.
  apply (X3_fetch_error_is_propagated [ResolverExample.H1] Facts.Hbroken
           [ResolverExample.H2]
           [ResolverExample.A; ResolverExample.B; ResolverExample.C]
           [FetchAccessible ResolverExample.H1]); reflexivity.
Defined.

Lemma hostLoop_fetches_prefix hosts shared log :
  ∃ k, snd (hostLoop hosts shared log) = log ++ map FetchAccessible (take k hosts).
Proof.
  revert shared log. induction hosts as [|h hosts IH]; intros shared log; simpl.
  - exists 0. by rewrite app_nil_r.
  - destruct (GetAllAccessibleDatastores h) as [err|accessible]; [by exists 1|].
    destruct (length (nextShared shared accessible) =? 0)%nat; [by exists 1|].
    destruct (IH (nextShared shared accessible) (log ++ [FetchAccessible h])) as [k ->].
    exists (S k). by rewrite <- app_assoc.
Qed.

(** X4. Whatever the inventory answers, the hosts are fetched in the order
    of the host list, each at most once, and without a gap: the fetches are
    those of an initial segment of the list. There is no fetch at all when
    the host list could not be obtained. *)
Theorem X4_fetches_form_an_initial_segment (c : Cluster) :
  match GetHostsByCluster c with
  | inr hosts =>
      ∃ k, snd (getSharedDatastoresInPodVMK8SCluster c)
           = map FetchAccessible (take k hosts)
  | inl _ => snd (getSharedDatastoresInPodVMK8SCluster c) = []
  end.
Proof.
  unfold getSharedDatastoresInPodVMK8SCluster.
  destruct (GetHostsByCluster c) as [err|hosts]; [by destruct (GetVCenter c)|].
  destruct (GetVCenter c); [by exists 0|].
  unfold sharedDatastoresOfHosts.
  destruct (length hosts =? 0)%nat; [by exists 0|].
  apply (hostLoop_fetches_prefix hosts [] []).
Qed.

(** X5. One more host at the end of a cluster whose resolution succeeds with
    [r] gives the stable intersection of [r] with the new host's set, after
    one more fetch; when that intersection is empty the call fails naming
    the new host. *)
Theorem X5_one_more_host hosts h r log accessible :
  getSharedDatastoresInPodVMK8SCluster (clusterOf hosts) = ((r, None), log) →
  GetAllAccessibleDatastores h = inr accessible →
  getSharedDatastoresInPodVMK8SCluster (clusterOf (hosts ++ [h]))
  = (match stableIntersection r accessible with
     | [] => ([], Some (ErrNoSharedDatastores h))
     | d :: r' => (d :: r', None)
     end, log ++ [FetchAccessible h]).
Proof.
  intros Hrun Hh.
  assert (hosts ≠ []) as Hne by (by destruct hosts).
  assert (r ≠ []) as Hr.
  { destruct hosts as [|h1 rest]; [done|]. by apply resolve_success in Hrun as (_ & _ & ? & _). }
  rewrite resolve_is_hostLoop in Hrun by done.
  rewrite resolve_is_hostLoop by (by destruct hosts).
  rewrite hostLoop_app, Hrun. simpl. rewrite Hh, (nextShared_running _ _ Hr).
  by destruct (stableIntersection r accessible).
Qed.

Lemma X5_example_third_host :
  getSharedDatastoresInPodVMK8SCluster
    (clusterOf ([ResolverExample.H1; ResolverExample.H2] ++ [ResolverExample.H3]))
  = (([], Some (ErrNoSharedDatastores ResolverExample.H3)),
     [FetchAccessible ResolverExample.H1; FetchAccessible ResolverExample.H2]
       ++ [FetchAccessible ResolverExample.H3]).
Proof.
  apply (X5_one_more_host [ResolverExample.H1; ResolverExample.H2] ResolverExample.H3
           [ResolverExample.B; ResolverExample.C]
           [FetchAccessible ResolverExample.H1; FetchAccessible ResolverExample.H2]
           [ResolverExample.D]); reflexivity.
Defined.

(** X6. Listing a host of the cluster once more changes nothing but the
    fetches: a resolution that succeeds with [r] still succeeds with [r]. *)
Theorem X6_repeated_host_changes_nothing hosts h r log :
  getSharedDatastoresInPodVMK8SCluster (clusterOf hosts) = ((r, None), log) →
  h ∈ hosts →
  getSharedDatastoresInPodVMK8SCluster (clusterOf (hosts ++ [h]))
  = ((r, None), log ++ [FetchAccessible h]).
Proof.
  intros Hrun Hin.
  assert (hosts ≠ []) as Hne by (by destruct hosts).
  assert (r ≠ [] ∧ fetchOk h = true ∧ ∀ d, d ∈ r → Url (Info d) ∈ urls (accessibleOf h))
    as (Hr & Hok & Hall).
  { destruct hosts as [|h1 rest]; [done|].
    pose proof Hrun as Hrun'.
    apply resolve_success in Hrun' as (Hoks & Er & Hr & _).
    split; [done|]. split.
    - rewrite Forall_forall in Hoks. by apply Hoks.
    - intros d Hd.
      assert (commonUrl (h1 :: rest) (Url (Info d))) as Hc.
      { apply urls_filter_common. rewrite <- Er.
        apply list_elem_of_In, (in_map (fun d => Url (Info d))). by apply list_elem_of_In. }
      by apply Hc. }
  rewrite resolve_is_hostLoop in Hrun by done.
  rewrite resolve_is_hostLoop by (by destruct hosts).
  rewrite hostLoop_app, Hrun. simpl.
  unfold fetchOk, accessibleOf in *.
  destruct (GetAllAccessibleDatastores h) as [err|accessible]; [done|].
  rewrite (nextShared_running _ _ Hr), (stableIntersection_all _ _ Hall).
  by destruct r.
Qed.

Lemma X6_example_repeated_host :
  getSharedDatastoresInPodVMK8SCluster
    (clusterOf ([ResolverExample.H1; ResolverExample.H2] ++ [ResolverExample.H1]))
  = (([ResolverExample.B; ResolverExample.C], None),
     [FetchAccessible ResolverExample.H1; FetchAccessible ResolverExample.H2]
       ++ [FetchAccessible ResolverExample.H1]).
Proof.
  apply (X6_repeated_host_changes_nothing [ResolverExample.H1; ResolverExample.H2]
           ResolverExample.H1 [ResolverExample.B; ResolverExample.C]
           [FetchAccessible ResolverExample.H1; FetchAccessible ResolverExample.H2]).
  - reflexivity.
  - left.
Defined.

End ResolverMore.

(** ** [CreateVolume] *)

Section CreateMore.
Import Common Create.

Lemma resolve_nonempty (c : Resolver.Cluster) ds fetches :
  Resolver.getSharedDatastoresInPodVMK8SCluster c = ((ds, None), fetches) → ds ≠ [].
Proof.
  unfold Resolver.getSharedDatastoresInPodVMK8SCluster.
  destruct (Resolver.GetVCenter c); [done|].
  destruct (Resolver.GetHostsByCluster c) as [err|hosts]; [done|].
  destruct hosts as [|h rest]; [done|]. intros Hrun.
  by apply (resolve_success h rest ds fetches) in Hrun as (_ & _ & ? & _).
Qed.

(** X7. The volume manager is asked to create a volume only when the
    validation passed and the resolution succeeded, with the resolved
    datastores, which are never empty, and the spec built from the request;
    that call is the last entry of the log, after all the fetches. *)
Theorem X7_backend_gets_resolved_nonempty_datastores env req spec ds :
  CreateBlockVolume spec ds ∈ snd (CreateVolume env req) →
  validateWCPCreateVolumeRequest env req = None
  ∧ fst (Resolver.getSharedDatastoresInPodVMK8SCluster (cluster env)) = (ds, None)
  ∧ ds ≠ []
  ∧ spec = createVolumeSpec (rangeOrder env) req
  ∧ snd (CreateVolume env req)
    = map Resolve (snd (Resolver.getSharedDatastoresInPodVMK8SCluster (cluster env)))
      ++ [CreateBlockVolume spec ds].
Proof.
  unfold CreateVolume.
  destruct (validateWCPCreateVolumeRequest env req); [by intros ?%elem_of_nil|].
  destruct (Resolver.getSharedDatastoresInPodVMK8SCluster (cluster env))
    as [[shared err] fetches] eqn:Hrun.
  assert (CreateBlockVolume spec ds ∉ map Resolve fetches) as Hfetch.
  { intros Hin. apply list_elem_of_In, in_map_iff in Hin as (? & ? & _). done. }
  destruct err; [done|].
  assert (CreateBlockVolume spec ds
            ∈ map Resolve fetches
              ++ [CreateBlockVolume (createVolumeSpec (rangeOrder env) req) shared] →
          spec = createVolumeSpec (rangeOrder env) req ∧ ds = shared) as Hlog.
  { intros [?|Hin%list_elem_of_singleton]%elem_of_app; [done|]. by injection Hin as -> ->. }
  assert (shared ≠ []) as Hne by (by eapply resolve_nonempty).
  destruct (CreateBlockVolumeUtil env _ shared); simpl;
    intros Hin; destruct (Hlog Hin) as [-> ->]; done.
Qed.

Lemma X7_example_backend_call :
  validateWCPCreateVolumeRequest (allGood []) oneByteRequest = None
  ∧ fst (Resolver.getSharedDatastoresInPodVMK8SCluster (cluster (allGood [])))
    = ([ResolverExample.B; ResolverExample.C], None)
  ∧ [ResolverExample.B; ResolverExample.C] ≠ []
  ∧ createVolumeSpec [] oneByteRequest = createVolumeSpec (rangeOrder (allGood [])) oneByteRequest
  ∧ snd (CreateVolume (allGood []) oneByteRequest)
    = map Resolve (snd (Resolver.getSharedDatastoresInPodVMK8SCluster (cluster (allGood []))))
      ++ [CreateBlockVolume (createVolumeSpec [] oneByteRequest)
            [ResolverExample.B; ResolverExample.C]].
Proof.
  apply (X7_backend_gets_resolved_nonempty_datastores (allGood []) oneByteRequest
           (createVolumeSpec [] oneByteRequest) [ResolverExample.B; ResolverExample.C]).
  right. right. left.
Defined.








(** X10. When two names of the request fold to the storage policy key and
    carry different values, the policy id depends on the order in which the
    names are visited: the name visited last wins. *)
Theorem X10_last_policy_spelling_wins (P : gmap string string) k1 k2 :
  foldsTo AttributeStoragePolicyID k1 = true →
  foldsTo AttributeStoragePolicyID k2 = true →
  Go.index P k1 ≠ Go.index P k2 →
  fst (scanParameters [k1; k2] P) = Go.index P k2
  ∧ fst (scanParameters [k2; k1] P) = Go.index P k1
  ∧ scanParameters [k1; k2] P ≠ scanParameters [k2; k1] P.
Proof.
  intros H1 H2 Hne.
  assert (fst (scanParameters [k1; k2] P) = Go.index P k2) as E12
    by (by apply (scanParameters_policy [k1] k2 [] P)).
  assert (fst (scanParameters [k2; k1] P) = Go.index P k1) as E21
    by (by apply (scanParameters_policy [k2] k1 [] P)).
  split; [done|]. split; [done|]. intros E. rewrite E in E12. congruence.
Qed.

Lemma X10_example_two_spellings :
  fst (scanParameters ["StoragePolicyID"; "storagepolicyid"] Facts.twoPolicySpellings)
  = "silver"
  ∧ fst (scanParameters ["storagepolicyid"; "StoragePolicyID"] Facts.twoPolicySpellings)
    = "gold"
  ∧ scanParameters ["StoragePolicyID"; "storagepolicyid"] Facts.twoPolicySpellings
    ≠ scanParameters ["storagepolicyid"; "StoragePolicyID"] Facts.twoPolicySpellings.
Proof.
  apply (X10_last_policy_spelling_wins Facts.twoPolicySpellings
           "StoragePolicyID" "storagepolicyid"); [reflexivity..|].
  by vm_compute.
Defined.

(** X11. The affinity hint is the value stored under the lower-case key
    itself: it is that value as soon as the key is among the names, and it
    is empty whenever the request has no parameter under that exact key,
    however the other names are spelled. *)
Theorem X11_affinity_comes_from_the_lowercase_key order (P : gmap string string) :
  (∀ v, P !! AttributeAffineToHost = Some v → AttributeAffineToHost ∈ order →
        snd (scanParameters order P) = v)
  ∧ (P !! AttributeAffineToHost = None → snd (scanParameters order P) = "").
Proof.
  rewrite scanParameters_affinity. unfold Go.index. split.
  - intros v -> Hin.
    assert (existsb (foldsTo AttributeAffineToHost) order = true) as ->; [|done].
    apply existsb_exists. exists AttributeAffineToHost.
    split; [by apply list_elem_of_In | reflexivity].
  - intros ->. by destruct (existsb _ order).
Qed.

Lemma X11_example_lowercase_key :
  snd (scanParameters ["fstype"; "affinetohost"] Facts.lowerCaseAffinity) = "host-11".
Proof.
  apply (proj1 (X11_affinity_comes_from_the_lowercase_key
                  ["fstype"; "affinetohost"] Facts.lowerCaseAffinity)).
  - reflexivity.
  - right. left.
Defined.

Local Open Scope Z_scope.

Lemma create_capacity_bytes env req volume :
  fst (CreateVolume env req) = Go.Returned volume →
  CapacityBytes volume = Go.wrap64 (volSizeMB req * MbInBytes).
Proof.
  unfold CreateVolume.
  destruct (validateWCPCreateVolumeRequest env req); [done|].
  destruct (Resolver.getSharedDatastoresInPodVMK8SCluster (cluster env))
    as [[shared err] fetches].
  destruct err; [done|].
  destruct (CreateBlockVolumeUtil env _ shared); [done|].
  simpl. by intros [= <-].
Qed.

Lemma volSizeBytes_required req range :
  GetCapacityRange req = Some range → RequiredBytes range ≠ 0 →
  volSizeBytes req = RequiredBytes range.
Proof.
  intros Hrange Hne. unfold volSizeBytes. rewrite Hrange.
  destruct (Z.eqb_spec (RequiredBytes range) 0); done.
Qed.

(** X12. A request for more than 2^63 - 2^20 bytes is rounded up to 2^43 MB,
    and the product back to bytes wraps around: a response to such a request
    reports the negative capacity -2^63. *)
Theorem X12_capacity_wraps_near_max_int64 env req range volume :
  GetCapacityRange req = Some range →
  2 ^ 63 - 2 ^ 20 < RequiredBytes range ≤ Go.max_int64 →
  fst (CreateVolume env req) = Go.Returned volume →
  volSizeMB req = 2 ^ 43 ∧ CapacityBytes volume = Go.min_int64.
Proof.
  intros Hrange Hbig Hret.
  assert (volSizeBytes req = RequiredBytes range) as Hbytes
    by (apply volSizeBytes_required; [done | lia]).
  assert (volSizeMB req = 2 ^ 43) as Hmb.
  { pose proof (RoundUpSize_ceiling (volSizeBytes req) MbInBytes) as Hceil.
    fold (volSizeMB req) in Hceil. rewrite Hbytes in Hceil.
    unfold Go.min_int64, Go.max_int64, MbInBytes in *. lia. }
  split; [done|]. rewrite (create_capacity_bytes _ _ _ Hret), Hmb. reflexivity.
Qed.

Lemma X12_example_max_int64 :
  volSizeMB (Facts.requestOf Go.max_int64) = 2 ^ 43
  ∧ CapacityBytes {| VolumeId := "volume-1"; CapacityBytes := - 2 ^ 63;
                     VolumeContext := {[ AttributeDiskType := DiskTypeBlockVolume ]} |}
    = Go.min_int64.
Proof.
  apply (X12_capacity_wraps_near_max_int64 (allGood []) (Facts.requestOf Go.max_int64)
           {| RequiredBytes := Go.max_int64; LimitBytes := 0 |}).
  - reflexivity.
  - vm_compute. split; [reflexivity | discriminate].
  - reflexivity.
Defined.



(** X14. The default size replaces a required size of zero only. A negative
    required size that the validation lets through is kept, and the spec
    handed to the volume manager then asks for zero MB or less. *)
Theorem X14_negative_size_is_not_defaulted order req range :
  GetCapacityRange req = Some range →
  Go.min_int64 ≤ RequiredBytes range < 0 →
  volSizeBytes req = RequiredBytes range
  ∧ CapacityMB (createVolumeSpec order req) ≤ 0
  ∧ (- MbInBytes < RequiredBytes range → CapacityMB (createVolumeSpec order req) = 0).
Proof.
  intros Hrange Hneg.
  assert (volSizeBytes req = RequiredBytes range) as Hbytes
    by (apply volSizeBytes_required; [done | lia]).
  pose proof (RoundUpSize_ceiling (volSizeBytes req) MbInBytes) as Hceil.
  fold (volSizeMB req) in Hceil. rewrite Hbytes in Hceil.
  assert ((volSizeMB req - 1) * MbInBytes < RequiredBytes range
          ≤ volSizeMB req * MbInBytes) as Hm.
  { apply Hceil; unfold Go.min_int64, Go.max_int64, MbInBytes in *; lia. }
  simpl. unfold MbInBytes in *. split; [done|]. split; [lia|]. lia.
Qed.

Lemma X14_example_minus_one_byte :
  volSizeBytes (Facts.requestOf (-1)) = -1
  ∧ CapacityMB (createVolumeSpec [] (Facts.requestOf (-1))) ≤ 0
  ∧ (- MbInBytes < -1 → CapacityMB (createVolumeSpec [] (Facts.requestOf (-1))) = 0).
Proof.
  apply (X14_negative_size_is_not_defaulted [] (Facts.requestOf (-1))
           {| RequiredBytes := -1; LimitBytes := 0 |}).
  - reflexivity.
  - vm_compute. split; [discriminate | reflexivity].
Defined.

Local Close Scope Z_scope.

End CreateMore.

(** ** [ReloadConfiguration] *)

Section ReloadMore.
Import VSphere Reload Facts.

Lemma selectVirtualCenter_same env newVCConfig c :
  credentialsDiffer (VcenterConfig (manager c)) newVCConfig = false →
  selectVirtualCenter env newVCConfig c
  = (c, virtualCenters c !! Host newVCConfig, [Lookup (Host newVCConfig)]).
Proof.
  intros Hsame. unfold selectVirtualCenter, GetVirtualCenter. rewrite Hsame.
  by destruct (virtualCenters c !! Host newVCConfig).
Qed.

Lemma updateCnsConfig_fields cfg c :
  virtualCenters (updateCnsConfig cfg c) = virtualCenters c
  ∧ VcenterConfig (manager (updateCnsConfig cfg c)) = VcenterConfig (manager c)
  ∧ VolumeManagerOf (manager (updateCnsConfig cfg c)) = VolumeManagerOf (manager c)
  ∧ CnsConfig (manager (updateCnsConfig cfg c)) = default (CnsConfig (manager c)) cfg.
Proof. by destruct cfg. Qed.

(** X15. With unchanged host, user name and password the reload neither
    deregisters nor registers anything and leaves the registry as it is.
    When the host has a session in the registry the volume manager handle is
    bound to that session; when it has none the reload gives up and the
    controller is exactly as before, the new configuration included. *)
Theorem X15_unchanged_credentials_reuse_the_session env c cfg newVCConfig :
  GetConfig env = inr cfg →
  GetVirtualCenterConfig env = inr (Some newVCConfig) →
  credentialsDiffer (VcenterConfig (manager c)) newVCConfig = false →
  virtualCenters (fst (ReloadConfiguration env c)) = virtualCenters c
  ∧ (UnregisterAll ∉ snd (ReloadConfiguration env c))
  ∧ (∀ config, Register config ∉ snd (ReloadConfiguration env c))
  ∧ (∀ vc, virtualCenters c !! Host newVCConfig = Some vc →
           VolumeManagerOf (manager (fst (ReloadConfiguration env c)))
           = {| virtualCenter := vc |}
           ∧ VcenterConfig (manager (fst (ReloadConfiguration env c))) = newVCConfig)
  ∧ (virtualCenters c !! Host newVCConfig = None →
     ReloadConfiguration env c = (c, [Lookup (Host newVCConfig)])).
Proof.
  intros Hcfg Hvc Hsame. unfold ReloadConfiguration.
  rewrite Hcfg, Hvc, (selectVirtualCenter_same _ _ _ Hsame).
  destruct (virtualCenters c !! Host newVCConfig) as [vc|]; simpl.
  - destruct (updateCnsConfig_fields cfg (bindVirtualCenter vc newVCConfig c))
      as (-> & -> & -> & _).
    split; [done|]. split; [|split; [|split; [|done]]].
    + by intros [?|[?|[]%elem_of_nil]%elem_of_cons]%elem_of_cons.
    + by intros config [?|[?|[]%elem_of_nil]%elem_of_cons]%elem_of_cons.
    + by intros ? [= <-].
  - split; [done|]. split; [|split; [|split; [done|done]]].
    + by intros [?|[]%elem_of_nil]%elem_of_cons.
    + by intros config [?|[]%elem_of_nil]%elem_of_cons.
Qed.

Lemma X15_example_same_credentials :
  VolumeManagerOf (manager (fst (ReloadConfiguration sameCredentials boundToOld)))
  = {| virtualCenter := oldSession |}
  ∧ VcenterConfig (manager (fst (ReloadConfiguration sameCredentials boundToOld)))
    = oldConfig.
Proof.
  apply (proj1 (proj2 (proj2 (proj2
           (X15_unchanged_credentials_reuse_the_session sameCredentials boundToOld
              _ oldConfig eq_refl eq_refl eq_refl))))).
  reflexivity.
Defined.

(** X16. When a reload returns, the manager is in one of three states: all
    its fields are as before; or only the configuration was replaced (no
    endpoint configuration was derived); or the endpoint configuration, the
    volume manager handle and the configuration are all the new ones, the
    handle being bound to the session the registry holds for the new host. *)
Theorem X16_reload_is_all_or_nothing_for_the_manager env c :
  manager (fst (ReloadConfiguration env c)) = manager c
  ∨ (∃ cfg, GetConfig env = inr cfg
       ∧ GetVirtualCenterConfig env = inr None
       ∧ fst (ReloadConfiguration env c) = updateCnsConfig cfg c)
  ∨ (∃ cfg newVCConfig vc,
       GetConfig env = inr cfg
       ∧ GetVirtualCenterConfig env = inr (Some newVCConfig)
       ∧ VcenterConfig (manager (fst (ReloadConfiguration env c))) = newVCConfig
       ∧ VolumeManagerOf (manager (fst (ReloadConfiguration env c)))
         = {| virtualCenter := vc |}
       ∧ virtualCenters (fst (ReloadConfiguration env c)) !! Host newVCConfig = Some vc
       ∧ CnsConfig (manager (fst (ReloadConfiguration env c)))
         = default (CnsConfig (manager c)) cfg).
Proof.
  unfold ReloadConfiguration.
  destruct (GetConfig env) as [e|cfg]; [by left|].
  destruct (GetVirtualCenterConfig env) as [e|[newVCConfig|]]; [by left| |].
  2:{ right. left. by exists cfg. }
  destruct (credentialsDiffer (VcenterConfig (manager c)) newVCConfig) eqn:Hdiff.
  - rewrite (selectVirtualCenter_differ _ _ _ Hdiff).
    destruct (unregisterFault env); [by left|].
    destruct (registerFault env); [by left|].
    right. right. exists cfg, newVCConfig, {| Config := newVCConfig |}. simpl.
    match goal with
    | |- context [updateCnsConfig cfg ?x] =>
        destruct (updateCnsConfig_fields cfg x) as (-> & -> & -> & ->)
    end.
    simpl. by rewrite lookup_singleton_eq.
  - rewrite (selectVirtualCenter_same _ _ _ Hdiff).
    destruct (virtualCenters c !! Host newVCConfig) as [vc|] eqn:Hreg; [|by left].
    right. right. exists cfg, newVCConfig, vc. simpl.
    match goal with
    | |- context [updateCnsConfig cfg ?x] =>
        destruct (updateCnsConfig_fields cfg x) as (-> & -> & -> & ->)
    end.
    done.
Qed.

Lemma keysMatch_empty : keysMatch ∅.
Proof. intros host vc Hin. by rewrite lookup_empty in Hin. Qed.

Lemma keysMatch_register config (registry : gmap string VirtualCenter) :
  keysMatch registry → keysMatch (<[Host config := {| Config := config |}]> registry).
Proof.
  intros Hkeys host vc. rewrite lookup_insert. case_decide as E.
  - by intros [= <-].
  - apply Hkeys.
Qed.

Lemma updateCnsConfig_hostBound cfg c : hostBound c → hostBound (updateCnsConfig cfg c).
Proof. by destruct cfg. Qed.

Lemma bindVirtualCenter_hostBound vc newVCConfig c :
  keysMatch (virtualCenters c) → Host (Config vc) = Host newVCConfig →
  hostBound (bindVirtualCenter vc newVCConfig c).
Proof. by split. Qed.

Lemma ReloadConfiguration_hostBound env c :
  hostBound c → hostBound (fst (ReloadConfiguration env c)).
Proof.
  intros [Hkeys Hbound]. unfold ReloadConfiguration.
  destruct (GetConfig env) as [e|cfg]; [done|].
  destruct (GetVirtualCenterConfig env) as [e|[newVCConfig|]]; [done| |].
  2:{ by apply updateCnsConfig_hostBound. }
  destruct (credentialsDiffer (VcenterConfig (manager c)) newVCConfig) eqn:Hdiff.
  - rewrite (selectVirtualCenter_differ _ _ _ Hdiff).
    destruct (unregisterFault env); [done|].
    destruct (registerFault env); [split; [apply keysMatch_empty | done]|].
    simpl. apply updateCnsConfig_hostBound, bindVirtualCenter_hostBound; [|done].
    simpl. rewrite <- insert_empty. apply keysMatch_register, keysMatch_empty.
  - rewrite (selectVirtualCenter_same _ _ _ Hdiff).
    destruct (virtualCenters c !! Host newVCConfig) as [vc|] eqn:Hreg; [|done].
    simpl. apply updateCnsConfig_hostBound, bindVirtualCenter_hostBound; [done|].
    by apply Hkeys.
Qed.

(** X17. Every reload, whatever the collaborators answer, keeps the pairing
    of handle and endpoint configuration at the level of the host: if every
    session of the registry is kept under its own host and the volume
    manager handle is bound to a session of the host named by the manager's
    endpoint configuration, the same holds when the reload returns. *)
Theorem X17_reload_keeps_handle_and_config_on_one_host env c :
  hostBound c → hostBound (fst (ReloadConfiguration env c)).
Proof. apply ReloadConfiguration_hostBound. Qed.

Lemma boundToOld_hostBound : hostBound boundToOld.
Proof.
  split; [|reflexivity]. intros host vc. unfold boundToOld. simpl.
  rewrite lookup_singleton. case_decide as E; [|done]. by intros [= <-].
Qed.

Lemma X17_example_failed_registration :
  hostBound (fst (ReloadConfiguration registrationFails boundToOld)).
Proof.
  apply (X17_reload_keeps_handle_and_config_on_one_host registrationFails boundToOld).
  apply boundToOld_hostBound.
Defined.

End ReloadMore.

(** ** Publish and delete *)

Section AttachMore.
Import VSphere Attach.

Lemma prepareAttach_returned env c req vc podVM :
  prepareAttach env c req = Go.Returned (vc, podVM) →
  ∃ vmuuid vcdcMap,
    validateWCPControllerPublishVolumeRequest env req = None
    ∧ getVMUUIDFromPodListenerService env (VolumeId req) (NodeId req) = inr vmuuid
    ∧ getDatacenterFromConfig env (CnsConfig (manager c)) = inr vcdcMap
    ∧ virtualCenters c !! fst (lastEntry vcdcMap) = Some vc
    ∧ Connect env vc = None
    ∧ getVMByInstanceUUIDInDatacenter env vc (snd (lastEntry vcdcMap)) vmuuid = inr podVM.
Proof.
  unfold prepareAttach.
  destruct (validateWCPControllerPublishVolumeRequest env req); [done|].
  destruct (getVMUUIDFromPodListenerService env (VolumeId req) (NodeId req))
    as [e|vmuuid]; [done|].
  destruct (getDatacenterFromConfig env (CnsConfig (manager c))) as [e|vcdcMap]; [done|].
  cbv beta iota delta [mbind Go.outcome_bind internal].
  destruct (lastEntry vcdcMap) as [vCenterHost dcMorefValue] eqn:Hlast. simpl.
  unfold GetVirtualCenter.
  destruct (virtualCenters c !! vCenterHost) as [v|] eqn:Hreg; [|done].
  cbv beta iota delta [mbind Go.outcome_bind internal Go.deref].
  destruct (Connect env v) eqn:Hconnect; [done|].
  destruct (getVMByInstanceUUIDInDatacenter env v dcMorefValue vmuuid)
    as [e|vm] eqn:Hvm; [done|].
  intros [= <- <-]. exists vmuuid, vcdcMap. rewrite Hlast. repeat split; done.
Qed.

(** X20. A publish call reaches the volume manager only after the
    validation, the VM identity, the datacenter, the session lookup, the
    connection and the VM resolution have all succeeded; it then makes
    exactly one attach call, for the resolved VM and the volume of the
    request. The controller itself is never changed. *)
Theorem X20_attach_only_after_every_step_succeeded env w req :
  ctl (snd (ControllerPublishVolume env w req)) = ctl w
  ∧ (history (snd (ControllerPublishVolume env w req)) ≠ history w →
     ∃ vmuuid vcdcMap vc podVM,
       validateWCPControllerPublishVolumeRequest env req = None
       ∧ getVMUUIDFromPodListenerService env (VolumeId req) (NodeId req) = inr vmuuid
       ∧ getDatacenterFromConfig env (CnsConfig (manager (ctl w))) = inr vcdcMap
       ∧ virtualCenters (ctl w) !! fst (lastEntry vcdcMap) = Some vc
       ∧ Connect env vc = None
       ∧ getVMByInstanceUUIDInDatacenter env vc (snd (lastEntry vcdcMap)) vmuuid
         = inr podVM
       ∧ history (snd (ControllerPublishVolume env w req))
         = history w ++ [AttachVolume podVM (VolumeId req)]).
Proof.
  unfold ControllerPublishVolume.
  destruct (prepareAttach env (ctl w) req) as [[vc podVM]|e|p] eqn:Hprep; [|done..].
  apply prepareAttach_returned in Hprep as (vmuuid & vcdcMap & ? & ? & ? & ? & ? & ?).
  simpl.
  split.
  - by destruct (AttachVolumeUtil env (manager (ctl w)) podVM (VolumeId req)).
  - intros _. exists vmuuid, vcdcMap, vc, podVM.
    repeat (split; [done|]).
    by destruct (AttachVolumeUtil env (manager (ctl w)) podVM (VolumeId req)).
Qed.

Lemma X20_example_attach :
  ∃ vmuuid vcdcMap vc podVM,
    validateWCPControllerPublishVolumeRequest registeredHost publishRequest = None
    ∧ getVMUUIDFromPodListenerService registeredHost
        (VolumeId publishRequest) (NodeId publishRequest) = inr vmuuid
    ∧ getDatacenterFromConfig registeredHost (CnsConfig (manager (ctl freshWorld)))
      = inr vcdcMap
    ∧ virtualCenters (ctl freshWorld) !! fst (lastEntry vcdcMap) = Some vc
    ∧ Connect registeredHost vc = None
    ∧ getVMByInstanceUUIDInDatacenter registeredHost vc (snd (lastEntry vcdcMap)) vmuuid
      = inr podVM
    ∧ history (snd (ControllerPublishVolume registeredHost freshWorld publishRequest))
      = history freshWorld ++ [AttachVolume podVM (VolumeId publishRequest)].
Proof.
  apply (proj2 (X20_attach_only_after_every_step_succeeded
                  registeredHost freshWorld publishRequest)).
  by vm_compute.
Defined.

(** X21. A publish call panics exactly when the request is valid, the VM
    identity and the datacenter are obtained, and the registry has no
    session for the host of the datacenter entry visited last. *)
Theorem X21_publish_panics_iff_the_host_is_unregistered env w req p :
  fst (ControllerPublishVolume env w req) = Go.Panicked p
  ↔ validateWCPControllerPublishVolumeRequest env req = None
    ∧ (∃ vmuuid,
         getVMUUIDFromPodListenerService env (VolumeId req) (NodeId req) = inr vmuuid)
    ∧ (∃ vcdcMap,
         getDatacenterFromConfig env (CnsConfig (manager (ctl w))) = inr vcdcMap
         ∧ virtualCenters (ctl w) !! fst (lastEntry vcdcMap) = None).
Proof.
  destruct p. unfold ControllerPublishVolume. split.
  - destruct (prepareAttach env (ctl w) req) as [[vc podVM]|e|p] eqn:Hprep.
    + simpl. by destruct (AttachVolumeUtil env (manager (ctl w)) podVM (VolumeId req)).
    + done.
    + intros _. revert Hprep. unfold prepareAttach.
      destruct (validateWCPControllerPublishVolumeRequest env req); [done|].
      destruct (getVMUUIDFromPodListenerService env (VolumeId req) (NodeId req))
        as [e|vmuuid]; [done|].
      destruct (getDatacenterFromConfig env (CnsConfig (manager (ctl w))))
        as [e|vcdcMap]; [done|].
      cbv beta iota delta [mbind Go.outcome_bind internal].
      destruct (lastEntry vcdcMap) as [vCenterHost dcMorefValue] eqn:Hlast. simpl.
      unfold GetVirtualCenter.
      destruct (virtualCenters (ctl w) !! vCenterHost) as [v|] eqn:Hreg.
      * cbv beta iota delta [mbind Go.outcome_bind internal Go.deref].
        destruct (Connect env v); [done|].
        by destruct (getVMByInstanceUUIDInDatacenter env v dcMorefValue vmuuid).
      * intros _. split; [done|]. split; [by exists vmuuid|]. exists vcdcMap. by rewrite Hlast.
  - intros (Hvalid & (vmuuid & Hvm) & (vcdcMap & Hdc & Hreg)).
    by rewrite (prepareAttach_lookup_failure env (ctl w) req vmuuid vcdcMap).
Qed.

End AttachMore.

Section DeleteMore.
Import VSphere Delete.

(** X22. [DeleteVolume] calls the volume manager exactly when the
    validation accepts the request, once, for the request's volume id and
    always with the flag that asks for the disk to be deleted. It succeeds
    exactly when that call does; a validation error comes back unwrapped and
    a failure of the call as an Internal status. *)
Theorem X22_delete_asks_for_the_disk_to_be_deleted env c req :
  (∀ m volumeID deleteDisk,
     DeleteVolumeUtilCall m volumeID deleteDisk ∈ snd (DeleteVolume env c req) →
     m = manager c ∧ volumeID = VolumeId req ∧ deleteDisk = true
     ∧ validateWCPDeleteVolumeRequest env req = None)
  ∧ length (snd (DeleteVolume env c req))
    = match validateWCPDeleteVolumeRequest env req with Some _ => 0 | None => 1 end
  ∧ (fst (DeleteVolume env c req) = Go.Returned Build_DeleteVolumeResponse
     ↔ validateWCPDeleteVolumeRequest env req = None
       ∧ DeleteVolumeUtil env (manager c) (VolumeId req) true = None)
  ∧ (∀ err, fst (DeleteVolume env c req) = Go.Failed err →
       (∃ e, err = Validation e ∧ validateWCPDeleteVolumeRequest env req = Some e)
       ∨ (∃ e, err = Errorf Status.Internal (VolumeId req) e
               ∧ DeleteVolumeUtil env (manager c) (VolumeId req) true = Some e)).
Proof.
  unfold DeleteVolume.
  destruct (validateWCPDeleteVolumeRequest env req) as [e0|].
  { split; [by intros ? ? ? ?%elem_of_nil|]. split; [done|].
    split; [by split; [|intros []]|]. intros err [= <-]. left. by exists e0. }
  destruct (DeleteVolumeUtil env (manager c) (VolumeId req) true) as [e1|]; simpl.
  - split; [by intros ? ? ? [= -> -> ->]%list_elem_of_singleton|]. split; [done|].
    split; [by split; [|intros []]|]. intros err [= <-]. right. by exists e1.
  - split; [by intros ? ? ? [= -> -> ->]%list_elem_of_singleton|]. split; [done|].
    split; done.
Qed.

Lemma X22_example_delete :
  Go.Returned Build_DeleteVolumeResponse
  = fst (DeleteVolume deleteSucceeds Reload.boundToOld deleteRequest).
Proof.
  symmetry.
  apply (proj2 (proj1 (proj2 (proj2
           (X22_delete_asks_for_the_disk_to_be_deleted
              deleteSucceeds Reload.boundToOld deleteRequest))))).
  split; reflexivity.
Defined.

End DeleteMore.

(** ** The watcher loop and [Init] *)

Section WatcherMore.
Import VSphere Watcher Facts.

Lemma watchLoop_hostBound inputs c trace :
  hostBound c → hostBound (fst (fst (watchLoop inputs c trace))).
Proof.
  revert c trace. induction inputs as [|input rest IH]; intros c trace Hc; [done|].
  destruct input as [event answers| |err|]; simpl; [|done|by apply IH|done].
  destruct (isRemove event); [|by apply IH].
  pose proof (ReloadConfiguration_hostBound answers c Hc) as Hc'.
  destruct (Reload.ReloadConfiguration answers c) as [c' calls]. by apply IH.
Qed.

Lemma watchLoop_status inputs c trace :
  snd (watchLoop inputs c trace) = Terminated
  ↔ Exists (fun input => isClosed input = true) inputs.
Proof.
  revert c trace. induction inputs as [|input rest IH]; intros c trace.
  - simpl. split; [done | by intros ?%Exists_nil].
  - rewrite Exists_cons. destruct input as [event answers| |err|]; simpl.
    + destruct (isRemove event).
      * destruct (Reload.ReloadConfiguration answers c) as [c' calls].
        rewrite IH. split; [by right | by intros [?|?]].
      * rewrite IH. split; [by right | by intros [?|?]].
    + split; [by left | done].
    + rewrite IH. split; [by right | by intros [?|?]].
    + split; [by left | done].
Qed.

(** X18. The watcher goroutine returns exactly when one of its two channels
    is found closed, and it stops there: whatever would be delivered after
    the closing is never looked at, so no reload happens after it. *)
Theorem X18_watcher_stops_at_the_first_closed_channel :
  (∀ inputs c trace,
     snd (watchLoop inputs c trace) = Terminated
     ↔ Exists (fun input => isClosed input = true) inputs)
  ∧ (∀ pre closed rest c trace,
       isClosed closed = true →
       watchLoop (pre ++ closed :: rest) c trace = watchLoop (pre ++ [closed]) c trace).
Proof.
  split; [apply watchLoop_status|].
  intros pre closed rest. induction pre as [|input pre IH]; intros c trace Hclosed.
  - by destruct closed.
  - destruct input as [event answers| |err|]; simpl; [|done|by apply IH|done].
    destruct (isRemove event); [|by apply IH].
    destruct (Reload.ReloadConfiguration answers c) as [c' calls]. by apply IH.
Qed.

Lemma X18_example_removal_after_close :
  watchLoop ([FromErrors (Cause "overflow")] ++ EventsClosed
               :: [FromEvents {| Name := "/etc/cloud/csi-vsphere.conf"; Op := Remove |}
                     Reload.registrationFails])
    Reload.boundToOld []
  = watchLoop ([FromErrors (Cause "overflow")] ++ [EventsClosed]) Reload.boundToOld [].
Proof.
  apply (proj2 X18_watcher_stops_at_the_first_closed_channel
           [FromErrors (Cause "overflow")] EventsClosed).
  reflexivity.
Defined.

(** X23. When every step before [watcher.Add] succeeds, [Init] returns
    whatever [watcher.Add] returns, and by then the manager is assigned, the
    session is registered under the host of the endpoint configuration, and
    both goroutines are started; this is so when [watcher.Add] fails, too. *)
Theorem X23_init_returns_what_adding_the_watch_returns env cfg registry
    vcenterconfig apiVersion :
  Init.GetVirtualCenterConfig env cfg = inr vcenterconfig →
  Init.registerFault env = None →
  Init.GetVCenter env
    {| VcenterConfig := vcenterconfig;
       CnsConfig := cfg;
       VolumeManagerOf := {| virtualCenter := {| Config := vcenterconfig |} |};
       VcenterManager := theVirtualCenterManager |} = inr apiVersion →
  Init.CheckAPI env apiVersion = None →
  Init.NewWatcher env = None →
  Init.Init env cfg registry
  = {| Init.err := Init.Add env (Init.Dir env (Init.GetConfigPath env));
       Init.managerAfter :=
         Some {| VcenterConfig := vcenterconfig;
                 CnsConfig := cfg;
                 VolumeManagerOf := {| virtualCenter := {| Config := vcenterconfig |} |};
                 VcenterManager := theVirtualCenterManager |};
       Init.registryAfter :=
         <[Host vcenterconfig := {| Config := vcenterconfig |}]> registry;
       Init.effects :=
         [Init.StartClearTaskInfoObjects; Init.StartWatcherLoop;
          Init.AddWatch (Init.Dir env (Init.GetConfigPath env))] |}.
Proof.
  intros Hvc Hreg Hget Hcheck Hwatcher. unfold Init.Init, RegisterVirtualCenter.
  by rewrite Hvc, Hreg, Hget, Hcheck, Hwatcher.
Qed.

Lemma X23_example_add_fails :
  Init.Init Init.addFails Init.initConfig ∅
  = {| Init.err := Some (Cause "no such file or directory");
       Init.managerAfter :=
         Some {| VcenterConfig := Reload.oldConfig;
                 CnsConfig := Init.initConfig;
                 VolumeManagerOf := {| virtualCenter := {| Config := Reload.oldConfig |} |};
                 VcenterManager := theVirtualCenterManager |};
       Init.registryAfter := <[ "vc-old" := {| Config := Reload.oldConfig |} ]> ∅;
       Init.effects :=
         [Init.StartClearTaskInfoObjects; Init.StartWatcherLoop;
          Init.AddWatch "/etc/cloud"] |}.
Proof.
  apply (X23_init_returns_what_adding_the_watch_returns Init.addFails Init.initConfig ∅
           Reload.oldConfig "6.7.3"); reflexivity.
Defined.

(** X24. [Init] starts the watcher loop only once the manager is assigned:
    whenever the loop is started, the task clean-up was started before it,
    the manager is set, and the registry holds the session the volume
    manager handle is bound to, under the host of the manager's endpoint
    configuration. An [Init] that fails before that starts nothing. *)
Theorem X24_watcher_starts_after_the_manager_is_assigned env cfg registry :
  (Init.StartWatcherLoop ∈ Init.effects (Init.Init env cfg registry) →
   ∃ m, Init.managerAfter (Init.Init env cfg registry) = Some m
        ∧ Init.registryAfter (Init.Init env cfg registry) !! Host (VcenterConfig m)
          = Some (virtualCenter (VolumeManagerOf m))
        ∧ Init.effects (Init.Init env cfg registry)
          = [Init.StartClearTaskInfoObjects; Init.StartWatcherLoop;
             Init.AddWatch (Init.Dir env (Init.GetConfigPath env))])
  ∧ (Init.managerAfter (Init.Init env cfg registry) = None →
     Init.effects (Init.Init env cfg registry) = []
     ∧ Init.err (Init.Init env cfg registry) ≠ None).
Proof.
  unfold Init.Init, RegisterVirtualCenter.
  destruct (Init.GetVirtualCenterConfig env cfg) as [e|vcenterconfig]; simpl.
  { split; [by intros ?%elem_of_nil | done]. }
  destruct (Init.registerFault env) as [e|]; simpl.
  { split; [by intros ?%elem_of_nil | done]. }
  destruct (Init.GetVCenter env _) as [e|apiVersion]; simpl.
  { split; [by intros ?%elem_of_nil | done]. }
  destruct (Init.CheckAPI env apiVersion) as [e|]; simpl.
  { split; [by intros ?%elem_of_nil | done]. }
  destruct (Init.NewWatcher env) as [e|]; simpl.
  { split; [|done]. by intros [?|?%elem_of_nil]%elem_of_cons. }
  split; [|done]. intros _. eexists. split; [done|]. simpl.
  by rewrite lookup_insert_eq.
Qed.

Lemma X24_example_watcher_started :
  ∃ m, Init.managerAfter (Init.Init Init.addFails Init.initConfig ∅) = Some m
       ∧ Init.registryAfter (Init.Init Init.addFails Init.initConfig ∅)
           !! Host (VcenterConfig m)
         = Some (virtualCenter (VolumeManagerOf m))
       ∧ Init.effects (Init.Init Init.addFails Init.initConfig ∅)
         = [Init.StartClearTaskInfoObjects; Init.StartWatcherLoop;
            Init.AddWatch (Init.Dir Init.addFails (Init.GetConfigPath Init.addFails))].
Proof.
  apply (proj1 (X24_watcher_starts_after_the_manager_is_assigned
                  Init.addFails Init.initConfig ∅)).
  right. left.
Defined.

(** X19. A successful [Init] on a registry that keeps every session under
    its own host leaves a controller whose volume manager handle is bound to
    a session of the host of its endpoint configuration, and this stays so
    after any run of the watcher loop, whatever events arrive and whatever
    the reloads they trigger run into. *)
Theorem X19_init_then_watcher_keep_handle_and_config_on_one_host
    env cfg registry c inputs trace :
  keysMatch registry →
  Init.controllerOf (Init.Init env cfg registry) = Some c →
  hostBound c ∧ hostBound (fst (fst (watchLoop inputs c trace))).
Proof.
  intros Hkeys Hinit.
  assert (hostBound c) as Hc; [|split; [done | by apply watchLoop_hostBound]].
  revert Hinit. unfold Init.controllerOf, Init.Init, RegisterVirtualCenter.
  destruct (Init.GetVirtualCenterConfig env cfg) as [e|vcenterconfig]; [done|].
  destruct (Init.registerFault env) as [e|]; [done|].
  destruct (Init.GetVCenter env _) as [e|apiVersion]; [done|].
  destruct (Init.CheckAPI env apiVersion) as [e|]; [done|].
  destruct (Init.NewWatcher env) as [e|]; [done|]. simpl.
  destruct (Init.Add env _); [done|]. intros [= <-].
  split; [by apply keysMatch_register | done].
Qed.

Lemma X19_example_init_then_failed_reload :
  hostBound {| manager :=
                 {| VcenterConfig := Reload.oldConfig;
                    CnsConfig := Init.initConfig;
                    VolumeManagerOf := {| virtualCenter := {| Config := Reload.oldConfig |} |};
                    VcenterManager := theVirtualCenterManager |};
               virtualCenters := <[ "vc-old" := {| Config := Reload.oldConfig |} ]> ∅ |}
  ∧ hostBound
      (fst (fst (watchLoop
                   [FromEvents {| Name := "/etc/cloud/csi-vsphere.conf"; Op := Remove |}
                      Reload.registrationFails]
                   {| manager :=
                        {| VcenterConfig := Reload.oldConfig;
                           CnsConfig := Init.initConfig;
                           VolumeManagerOf :=
                             {| virtualCenter := {| Config := Reload.oldConfig |} |};
                           VcenterManager := theVirtualCenterManager |};
                      virtualCenters :=
                        <[ "vc-old" := {| Config := Reload.oldConfig |} ]> ∅ |} []))).
Proof.
  apply (X19_init_then_watcher_keep_handle_and_config_on_one_host
           Init.allGood Init.initConfig ∅).
  - apply keysMatch_empty.
  - reflexivity.
Defined.

End WatcherMore.

(** ** Capabilities *)

Section VerbsMore.
Import VSphere Verbs.

(** X25. The capabilities the controller reports are create/delete and
    publish/unpublish, in this order and nothing else, whatever the request
    and the state; in particular listing, capacity, snapshots and expansion
    are not reported, and each of the six verbs behind them answers
    Unimplemented with an empty message. [CreateVolume] and
    [ControllerPublishVolume], which are reported, never answer
    Unimplemented. *)
Theorem X25_reported_capabilities_match_the_verbs
    {Req Resp : Type} (c : controller) (req : Req) :
  @ControllerGetCapabilities Req c req
  = Go.Returned [{| Rpc := CREATE_DELETE_VOLUME |}; {| Rpc := PUBLISH_UNPUBLISH_VOLUME |}]
  ∧ (∀ cap, cap ∈ [LIST_VOLUMES; GET_CAPACITY; CREATE_DELETE_SNAPSHOT; LIST_SNAPSHOTS;
                   EXPAND_VOLUME] → cap ∉ controllerCaps)
  ∧ (∀ verb, verb ∈ [@ListVolumes Req Resp; @GetCapacity Req Resp;
                     @CreateSnapshot Req Resp; @DeleteSnapshot Req Resp;
                     @ListSnapshots Req Resp; @ControllerExpandVolume Req Resp] →
             verb c req = Go.Failed (Error Status.Unimplemented ""))
  ∧ (∀ env r err, fst (Create.CreateVolume env r) = Go.Failed err →
                  codeOf err ≠ Some Status.Unimplemented)
  ∧ (∀ env w r err, fst (Attach.ControllerPublishVolume env w r) = Go.Failed err →
                    codeOf err ≠ Some Status.Unimplemented).
Proof.
  split; [reflexivity|]. split; [|split; [|split]].
  - intros cap Hcap Hin. unfold controllerCaps in Hin.
    repeat (apply elem_of_cons in Hcap as [->|Hcap];
            [by repeat (apply elem_of_cons in Hin as [?|Hin]; [done|]);
                apply elem_of_nil in Hin|]).
    by apply elem_of_nil in Hcap.
  - intros verb Hverb.
    repeat (apply elem_of_cons in Hverb as [->|Hverb]; [reflexivity|]).
    by apply elem_of_nil in Hverb.
  - intros env r err. unfold Create.CreateVolume.
    destruct (Create.validateWCPCreateVolumeRequest env r); [by intros [= <-]|].
    destruct (Resolver.getSharedDatastoresInPodVMK8SCluster (Create.cluster env))
      as [[shared e] fetches].
    destruct e; [by intros [= <-]|].
    destruct (Create.CreateBlockVolumeUtil env _ shared); [by intros [= <-] | done].
  - intros env w r err. unfold Attach.ControllerPublishVolume.
    destruct (Attach.prepareAttach env (Attach.ctl w) r) as [[vc podVM]|e|p] eqn:Hprep.
    + simpl. destruct (Attach.AttachVolumeUtil env _ podVM (Attach.VolumeId r));
        simpl; [by intros [= <-] | done].
    + simpl. intros [= <-]. revert Hprep. unfold Attach.prepareAttach.
      destruct (Attach.validateWCPControllerPublishVolumeRequest env r); [by intros [= <-]|].
      destruct (Attach.getVMUUIDFromPodListenerService env _ _) as [?|vmuuid];
        [by intros [= <-]|].
      destruct (Attach.getDatacenterFromConfig env _) as [?|vcdcMap]; [by intros [= <-]|].
      cbv beta iota delta [mbind Go.outcome_bind Attach.internal].
      destruct (Attach.lastEntry vcdcMap) as [vCenterHost dcMorefValue]. simpl.
      unfold GetVirtualCenter.
      destruct (virtualCenters (Attach.ctl w) !! vCenterHost) as [v|]; [|done].
      cbv beta iota delta [mbind Go.outcome_bind Attach.internal Go.deref].
      destruct (Attach.Connect env v); [by intros [= <-]|].
      destruct (Attach.getVMByInstanceUUIDInDatacenter env v dcMorefValue vmuuid);
        [by intros [= <-] | done].
    + done.
Qed.

Lemma X25_example_list_volumes :
  @ListVolumes unit unit Reload.boundToOld tt = Go.Failed (Error Status.Unimplemented "").
Proof.
  apply (proj1 (proj2 (proj2
           (@X25_reported_capabilities_match_the_verbs unit unit Reload.boundToOld tt)))).
  left.
Defined.

End VerbsMore.
